(** * sigma-bot: the attendance ledger of [bot.py]

    A shallow embedding of the stateful part of [bot.py]: the [users]
    table, the accessor ([ensure_user], [get_user]), the three event
    handlers that touch it ([on_member_join], [checkin], [profile]) and
    the start-up check on the credential.

    Modelling conventions.
    - The [users] table is a finite map from [user_id] (the primary key)
      to a row.  Python integers are unbounded, so the values the code
      computes are in [Z]; an INTEGER column holds 64 bits, signed, and
      binding a computed balance or count outside that range to a
      statement raises [OverflowError].  User ids are the snowflake ids of
      the platform, which fit.
    - The two TEXT columns are nullable: [option string], [None] is NULL.
    - A [with db() as conn:] block is a transaction: it commits when the
      block ends normally and rolls back when the block raises.
    - What a handler sends to the chat platform is returned as a value. *)

From Stdlib Require Import Ascii String.
From stdpp Require Import gmap strings pretty list.

Open Scope Z_scope.

(** ** Constants of the module *)

Definition DAILY_REWARD : Z := 100000.
Definition WELCOME_CHANNEL_ID : Z := 0.

(** ** The [users] table *)

(** One row of [users]; [user_id] is the key of the map below. *)
Record Row := mkRow {
  balance : Z;
  total_checkins : Z;
  last_checkin : option string;
  joined_at : option string
}.

Global Instance Row_eq_dec : EqDecision Row.
Proof. solve_decision. Defined.

Abbreviation Table := (gmap Z Row).

(** The row that [INSERT ... users(user_id)] creates: every other column
    takes the default of the schema in [init_db]. *)
Definition default_row : Row :=
  {| balance := 0; total_checkins := 0; last_checkin := None; joined_at := None |}.

(** [CREATE TABLE IF NOT EXISTS users]: an absent table becomes the empty
    one, an existing table is left as it is. *)
Definition init_db (file : option Table) : Table :=
  match file with
  | Some t => t
  | None => ∅
  end.

(** ** Handlers as computations on the database

    A computation reads and writes the table and may raise; what it wrote
    before raising stays in the state it hands back, and it is [with_db]
    that undoes it. *)

Inductive exn : Type :=
| TypeError (* subscripting the [None] that [fetchone] returns on no row *)
| OverflowError (* binding an int that does not fit an INTEGER column *).

Definition M (A : Type) : Type := Table → (exn + A) * Table.

Definition ret {A} (a : A) : M A := λ t, (inr a, t).

Definition bind {A B} (m : M A) (k : A → M B) : M B :=
  λ t, match m t with
       | (inl e, t') => (inl e, t')
       | (inr a, t') => k a t'
       end.

Definition raise {A} (e : exn) : M A := λ t, (inl e, t).

Notation "'do' x <- m ; k" := (bind m (λ x, k))
  (at level 10, x name, m at level 100, k at level 200,
   format "'[v' 'do'  x  <-  m ; '/' k ']'").

(** [with db() as conn: body]: commit on normal exit, roll back on an
    exception, which is then re-raised to the caller. *)
Definition with_db {A} (body : M A) : M A :=
  λ t, match body t with
       | (inl e, _) => (inl e, t)
       | (inr a, t') => (inr a, t')
       end.

(** ** The accessor *)

(** [INSERT OR IGNORE INTO users(user_id) VALUES (?)] *)
Definition ensure_user (user_id : Z) : M unit :=
  λ conn, match conn !! user_id with
          | Some _ => (inr tt, conn)
          | None => (inr tt, <[user_id := default_row]> conn)
          end.

(** [SELECT * FROM users WHERE user_id=?] followed by [fetchone()] *)
Definition select_user (user_id : Z) : M (option Row) :=
  λ conn, (inr (conn !! user_id), conn).

Definition get_user (user_id : Z) : M (option Row) :=
  do _ <- ensure_user user_id;
  select_user user_id.

(** [user[col]] on the result of [fetchone()]. *)
Definition subscript {A} (user : option Row) (col : Row → A) : M A :=
  match user with
  | Some r => ret (col r)
  | None => raise TypeError
  end.

(** [UPDATE users SET joined_at=? WHERE user_id=?] *)
Definition update_joined_at (joined_str : string) (user_id : Z) : M unit :=
  λ conn,
    (inr tt, alter (λ r, {| balance := balance r;
                            total_checkins := total_checkins r;
                            last_checkin := last_checkin r;
                            joined_at := Some joined_str |}) user_id conn).

(** The range of an INTEGER column: 64 bits, signed. *)
Definition INT64_MIN : Z := -9223372036854775808.
Definition INT64_MAX : Z := 9223372036854775807.

Definition in_int64 (v : Z) : Prop := INT64_MIN ≤ v ≤ INT64_MAX.

Global Instance in_int64_dec (v : Z) : Decision (in_int64 v).
Proof. unfold in_int64. apply _. Defined.

(** Binding a Python int to a parameter of a statement. *)
Definition bind_int (v : Z) : M unit :=
  if decide (in_int64 v) then ret tt else raise OverflowError.

(** [UPDATE users SET balance=?, total_checkins=?, last_checkin=?
     WHERE user_id=?]: the parameters are bound in their order, then the
    row is written. *)
Definition update_checkin (new_balance new_total : Z) (today : string)
    (user_id : Z) : M unit :=
  do _ <- bind_int new_balance;
  do _ <- bind_int new_total;
  λ conn,
    (inr tt, alter (λ r, {| balance := new_balance;
                            total_checkins := new_total;
                            last_checkin := Some today;
                            joined_at := joined_at r |}) user_id conn).

(** ** Formatting *)

(** Commas between groups of three, on the digits taken from the right:
    [k] digits are still to come before the next comma. *)
Fixpoint group3 (k : nat) (rev_digits : list ascii) : list ascii :=
  match rev_digits with
  | [] => []
  | c :: rest =>
      match k with
      | O => ","%char :: c :: group3 2 rest
      | S k' => c :: group3 k' rest
      end
  end.

(** [f"{n:,}"] *)
Definition format_comma (n : Z) : string :=
  let digits := list_ascii_of_string (pretty (Z.abs n)) in
  let grouped := string_of_list_ascii (rev (group3 3 (rev digits))) in
  if decide (n < 0) then "-" +:+ grouped else grouped.

Definition format_won (n : Z) : string := format_comma n +:+ "₩".

(** [f"{n}회"] *)
Definition format_count (n : Z) : string := pretty n +:+ "회".

(** ** Python truthiness of an optional string *)

(** [bool(x)] for [x : Optional[str]]: [None] and the empty string are
    false. *)
Definition truthy (x : option string) : bool :=
  match x with
  | None => false
  | Some EmptyString => false
  | Some (String _ _) => true
  end.

(** [x or y] *)
Definition or_else (x : option string) (y : string) : string :=
  match x with
  | Some s => if truthy x then s else y
  | None => y
  end.

(** ** What the platform hands to the handlers *)

(** The calendar part of [member.joined_at]. *)
Record datetime := mkDatetime {
  year : nat;
  month : nat;
  day : nat
}.

(** [str.zfill] on a decimal numeral. *)
Definition zfill (width : nat) (s : string) : string :=
  string_of_list_ascii (replicate (width - String.length s) "0"%char) +:+ s.

(** [d.strftime("%Y-%m-%d")]: the year on four digits, month and day on two.
    (How a year below 1000 is padded depends on the platform; the
    properties below use only that the result is not empty.) *)
Definition strftime_Ymd (d : datetime) : string :=
  zfill 4 (pretty (year d)) +:+ "-" +:+
  zfill 2 (pretty (month d)) +:+ "-" +:+
  zfill 2 (pretty (day d)).

Record Guild := mkGuild {
  get_channel : Z → option Z;
  system_channel : option Z
}.

Record Member := mkMember {
  member_id : Z;
  bot : bool;
  mention : string;
  display_name : string (* [str(member)] *);
  display_avatar_url : string;
  member_joined_at : option datetime;
  guild : Guild
}.

Record Interaction := mkInteraction {
  interaction_user : Member
}.

(** ** Embeds and messages *)

Record EmbedField := mkField {
  name : string;
  value : string;
  inline : bool
}.

Record Embed := mkEmbed {
  title : string;
  description : string;
  author : option (string * string);
  thumbnail : option string;
  fields : list EmbedField
}.

(** [discord.Embed(title=..., description=...)] *)
Definition new_embed (title description : string) : Embed :=
  {| title := title; description := description;
     author := None; thumbnail := None; fields := [] |}.

Definition set_author (name icon_url : string) (e : Embed) : Embed :=
  {| title := title e; description := description e;
     author := Some (name, icon_url); thumbnail := thumbnail e;
     fields := fields e |}.

Definition set_thumbnail (url : string) (e : Embed) : Embed :=
  {| title := title e; description := description e;
     author := author e; thumbnail := Some url;
     fields := fields e |}.

Definition add_field (name value : string) (inline : bool) (e : Embed) : Embed :=
  {| title := title e; description := description e;
     author := author e; thumbnail := thumbnail e;
     fields := fields e ++ [mkField name value inline] |}.

(** What [interaction.response.send_message] is called with. *)
Inductive Response : Type :=
| SendEmbed (embed : Embed) (ephemeral : bool)
| SendText (content : string).

(** What [channel.send] is called with, and on which channel. *)
Record ChannelSend := mkSend {
  channel : Z;
  sent_embed : Embed
}.

(** ** The handlers *)

(** [joined_str] of [on_member_join]. *)
Definition joined_str (member : Member) : string :=
  match member_joined_at member with
  | Some d => strftime_Ymd d
  | None => "알 수 없음"
  end.

(** The channel [on_member_join] sends the welcome to, if any. *)
Definition welcome_channel (member : Member) : option Z :=
  let channel :=
    if decide (WELCOME_CHANNEL_ID = 0) then None
    else get_channel (guild member) WELCOME_CHANNEL_ID in
  match channel with
  | None => system_channel (guild member)
  | Some c => Some c
  end.

Definition on_member_join (member : Member) : M (option ChannelSend) :=
  if bot member then ret None else
  do user <- with_db (
    do user <- get_user (member_id member);
    do joined <- subscript user joined_at;
    if negb (truthy joined) then
      do _ <- update_joined_at (joined_str member) (member_id member);
      get_user (member_id member)
    else ret user);
  match welcome_channel member with
  | None => ret None
  | Some channel =>
      let embed :=
        new_embed "👋 새 멤버 입장!"
          (mention member +:+ " 님 환영합니다!
SIGMA 프로필이 자동 생성되었습니다.") in
      let embed := set_author (display_name member) (display_avatar_url member) embed in
      let embed := set_thumbnail (display_avatar_url member) embed in
      let embed := add_field "🆔 USER ID" (pretty (member_id member)) false embed in
      do joined <- subscript user joined_at;
      let embed :=
        add_field "📅 서버 입장일" (or_else joined (joined_str member)) true embed in
      do bal <- subscript user balance;
      let embed := add_field "💰 현재 잔고" (format_won bal) true embed in
      do total <- subscript user total_checkins;
      let embed := add_field "✅ 총 출석" (format_count total) true embed in
      ret (Some (mkSend channel embed))
  end.

(** The reply of a check-in that was already made today. *)
Definition already_embed (interaction : Interaction) (bal : Z) : Embed :=
  let embed := new_embed "✅ 이미 출석했어요" "오늘은 이미 출석 보상을 받았습니다." in
  let embed := add_field "현재 잔고" (format_won bal) true embed in
  set_thumbnail (display_avatar_url (interaction_user interaction)) embed.

(** The reply of a check-in that was granted. *)
Definition granted_embed (interaction : Interaction) (new_balance new_total : Z) : Embed :=
  let embed :=
    new_embed "✅ 출석 완료!"
      ("**" +:+ format_won DAILY_REWARD +:+ "** 지급되었습니다.") in
  let embed := add_field "현재 잔고" (format_won new_balance) true embed in
  let embed := add_field "총 출석" (format_count new_total) true embed in
  set_thumbnail (display_avatar_url (interaction_user interaction)) embed.

(** [today] is [date.today().isoformat()], read by the handler when it
    starts. *)
Definition checkin (interaction : Interaction) (today : string) : M Response :=
  do r <- with_db (
    do user <- get_user (member_id (interaction_user interaction));
    do last <- subscript user last_checkin;
    if decide (last = Some today) then
      do bal <- subscript user balance;
      ret (inl (SendEmbed (already_embed interaction bal) true))
    else
      do bal <- subscript user balance;
      let new_balance := bal + DAILY_REWARD in
      do total <- subscript user total_checkins;
      let new_total := total + 1 in
      do _ <- update_checkin new_balance new_total today
                (member_id (interaction_user interaction));
      ret (inr (new_balance, new_total)));
  match r with
  | inl sent => ret sent
  | inr (new_balance, new_total) =>
      ret (SendEmbed (granted_embed interaction new_balance new_total) false)
  end.

Definition profile_embed (interaction : Interaction) (r : Row) : Embed :=
  let embed := new_embed "SIGMA PROFILE" "시그마 봇과 함께하는 Play Game." in
  let embed :=
    add_field "💰 현재 잔고" ("**" +:+ format_won (balance r) +:+ "**") false embed in
  let embed := add_field "📅 총 출석" (format_count (total_checkins r)) true embed in
  let embed := add_field "🕒 마지막 출석" (or_else (last_checkin r) "없음") true embed in
  let embed := add_field "📥 서버 입장일" (or_else (joined_at r) "기록 없음") true embed in
  let embed := set_thumbnail (display_avatar_url (interaction_user interaction)) embed in
  set_author (display_name (interaction_user interaction))
    (display_avatar_url (interaction_user interaction)) embed.

Definition profile (interaction : Interaction) : M Response :=
  do user <- with_db (get_user (member_id (interaction_user interaction)));
  do bal <- subscript user balance;
  do total <- subscript user total_checkins;
  do last <- subscript user last_checkin;
  do joined <- subscript user joined_at;
  ret (SendEmbed
         (profile_embed interaction
            {| balance := bal; total_checkins := total;
               last_checkin := last; joined_at := joined |})
         false).

Definition ping (interaction : Interaction) : M Response :=
  ret (SendText "pong 🗿").

(** ** Start-up *)

Inductive Startup : Type :=
| RuntimeError (message : string)
| ClientRun (token : string).

(** The end of the module: [environ] is the process environment after
    [load_dotenv()]. *)
Definition startup (environ : gmap string string) : Startup :=
  let TOKEN := environ !! "DISCORD_TOKEN" in
  match TOKEN with
  | Some token =>
      if negb (truthy TOKEN)
      then RuntimeError "DISCORD_TOKEN이 .env에 없습니다."
      else ClientRun token
  | None => RuntimeError "DISCORD_TOKEN이 .env에 없습니다."
  end.

(** ** Event traces *)

Inductive Event : Type :=
| MemberJoin (member : Member)
| CommandCheckin (interaction : Interaction) (today : string)
| CommandProfile (interaction : Interaction)
| CommandPing (interaction : Interaction).

(** The table after the handler of one event has run; an exception of a
    handler ends that handler only. *)
Definition handle (ev : Event) (t : Table) : Table :=
  match ev with
  | MemberJoin member => snd (on_member_join member t)
  | CommandCheckin interaction today => snd (checkin interaction today t)
  | CommandProfile interaction => snd (profile interaction t)
  | CommandPing interaction => snd (ping interaction t)
  end.

Fixpoint run (evs : list Event) (t : Table) : Table :=
  match evs with
  | [] => t
  | ev :: rest => run rest (handle ev t)
  end.

(** ** Specification vocabulary

    The rows, views and effects in which the properties below are
    stated. *)

(** The record get-or-create reads for [uid] in [t]. *)
Definition current (t : Table) (uid : Z) : Row := default default_row (t !! uid).

(** The row a granted check-in writes over [r]. *)
Definition granted_row (r : Row) (today : string) : Row :=
  {| balance := balance r + DAILY_REWARD;
     total_checkins := total_checkins r + 1;
     last_checkin := Some today;
     joined_at := joined_at r |}.

(** Whether the balance and the count of a granted check-in on [r] fit
    their columns. *)
Definition fits_granted (r : Row) : Prop :=
  in_int64 (balance r + DAILY_REWARD) ∧ in_int64 (total_checkins r + 1).

Global Instance fits_granted_dec (r : Row) : Decision (fits_granted r).
Proof. unfold fits_granted. apply _. Defined.

(** No stored join date is the empty string. *)
Definition joined_ok (t : Table) : Prop :=
  map_Forall (λ _ r, joined_at r ≠ Some EmptyString) t.

(** Every balance and count in the table fits its column. *)
Definition storable (t : Table) : Prop :=
  map_Forall (λ _ r, in_int64 (balance r) ∧ in_int64 (total_checkins r)) t.

(** [r] with [joined_at] stamped. *)
Definition stamped_row (r : Row) (joined : string) : Row :=
  {| balance := balance r;
     total_checkins := total_checkins r;
     last_checkin := last_checkin r;
     joined_at := Some joined |}.

(** The embed of the welcome message, for the record [r] read last. *)
Definition welcome_embed (member : Member) (r : Row) : Embed :=
  let embed :=
    new_embed "👋 새 멤버 입장!"
      (mention member +:+ " 님 환영합니다!
SIGMA 프로필이 자동 생성되었습니다.") in
  let embed := set_author (display_name member) (display_avatar_url member) embed in
  let embed := set_thumbnail (display_avatar_url member) embed in
  let embed := add_field "🆔 USER ID" (pretty (member_id member)) false embed in
  let embed :=
    add_field "📅 서버 입장일" (or_else (joined_at r) (joined_str member)) true embed in
  let embed := add_field "💰 현재 잔고" (format_won (balance r)) true embed in
  add_field "✅ 총 출석" (format_count (total_checkins r)) true embed.

Definition welcome (member : Member) (r : Row) : option ChannelSend :=
  match welcome_channel member with
  | None => None
  | Some channel => Some (mkSend channel (welcome_embed member r))
  end.

(** The four ways in which a handler leaves the table. *)
Inductive effect (t : Table) : Event → Table → Prop :=
| effect_none ev :
    effect t ev t
| effect_create ev uid :
    t !! uid = None →
    effect t ev (<[uid := default_row]> t)
| effect_stamp member :
    bot member = false →
    truthy (joined_at (current t (member_id member))) = false →
    effect t (MemberJoin member)
      (<[member_id member :=
           stamped_row (current t (member_id member)) (joined_str member)]> t)
| effect_grant interaction today :
    last_checkin (current t (member_id (interaction_user interaction)))
      ≠ Some today →
    effect t (CommandCheckin interaction today)
      (<[member_id (interaction_user interaction) :=
           granted_row (current t (member_id (interaction_user interaction)))
             today]> t).

(** The stored join date of [u]: [None] when [u] has no row or a null
    [joined_at]. *)
Definition joined_of (t : Table) (u : Z) : option string := t !! u ≫= joined_at.

(** The balance and the attendance count get-or-create reports for [u]. *)
Definition counters (t : Table) (u : Z) : Z * Z :=
  (balance (current t u), total_checkins (current t u)).

Definition is_join (ev : Event) : bool :=
  match ev with MemberJoin _ => true | _ => false end.

Definition is_checkin (ev : Event) : bool :=
  match ev with CommandCheckin _ _ => true | _ => false end.

(** Every stored balance is the attendance count times the reward. *)
Definition ledger_ok (t : Table) : Prop :=
  map_Forall (λ _ r, balance r = total_checkins r * DAILY_REWARD) t.

(** What one event does to the record of one user. *)
Inductive row_step (ev : Event) (r : Row) : Row → Prop :=
| row_same :
    row_step ev r r
| row_stamp member :
    ev = MemberJoin member → bot member = false →
    truthy (joined_at r) = false →
    row_step ev r (stamped_row r (joined_str member))
| row_grant interaction today :
    ev = CommandCheckin interaction today →
    last_checkin r ≠ Some today →
    row_step ev r (granted_row r today).

(** The user an event is about. *)
Definition event_user (ev : Event) : Z :=
  match ev with
  | MemberJoin member => member_id member
  | CommandCheckin interaction _ => member_id (interaction_user interaction)
  | CommandProfile interaction => member_id (interaction_user interaction)
  | CommandPing interaction => member_id (interaction_user interaction)
  end.

(** Whether the handler of an event opens the database and gets or creates
    the row of its user. *)
Definition touches (ev : Event) : bool :=
  match ev with
  | MemberJoin member => negb (bot member)
  | CommandCheckin _ _ => true
  | CommandProfile _ => true
  | CommandPing _ => false
  end.

(** The record an event leaves to its user, from the record [r] that
    get-or-create reads. *)
Definition row_after (ev : Event) (r : Row) : Row :=
  match ev with
  | MemberJoin member =>
      if truthy (joined_at r) then r else stamped_row r (joined_str member)
  | CommandCheckin _ today =>
      if decide (last_checkin r = Some today) then r
      else if decide (fits_granted r) then granted_row r today
      else r
  | CommandProfile _ => r
  | CommandPing _ => r
  end.

(** The number of check-ins that are granted when one user checks in on
    the dates [dates], in this order, with [last] the stored
    [last_checkin] before the first of them. *)
Fixpoint grants (last : option string) (dates : list string) : nat :=
  match dates with
  | [] => O
  | d :: rest =>
      if decide (last = Some d) then grants last rest
      else S (grants (Some d) rest)
  end.

(** The stored [last_checkin] after those check-ins. *)
Definition last_date (last : option string) (dates : list string) : option string :=
  foldl (λ _ d, Some d) last dates.

(** A formatted number with its thousands separators removed. *)
Definition strip_commas (s : string) : string :=
  string_of_list_ascii
    (filter (λ c, c ≠ ","%char) (list_ascii_of_string s)).

(** ** The [users] table, column by column

    [init_db] and [migrate_db] work on the schema of the table, which the
    row type above fixes.  Here the table has a list of columns and each
    row a value per column, as [PRAGMA table_info] and [ALTER TABLE] see
    it. *)

Module Schema.

Inductive value : Type :=
| Null
| Integer (z : Z)
| Text (s : string).

Record table := mkTable {
  columns : list string;
  rows : gmap Z (gmap string value)
}.

Inductive sql_error : Type :=
| OperationalError (* no such table, or duplicate column name *).

(** The columns of [CREATE TABLE ... users] in [init_db]. *)
Definition users_columns : list string :=
  ["user_id"; "balance"; "total_checkins"; "last_checkin"; "joined_at"].

(** [CREATE TABLE IF NOT EXISTS users (...)] on a file in which the table
    is there ([Some]) or not ([None]). *)
Definition init_db (file : option table) : option table :=
  match file with
  | Some t => Some t
  | None => Some (mkTable users_columns ∅)
  end.

(** The names that [PRAGMA table_info(users)] lists: none for a missing
    table. *)
Definition table_info (file : option table) : list string :=
  match file with
  | Some t => columns t
  | None => []
  end.

(** Column names are compared without regard to the case of the ASCII
    letters. *)
Definition lower_ascii (c : ascii) : ascii :=
  let n := nat_of_ascii c in
  if decide (65 ≤ n ≤ 90)%nat then ascii_of_nat (n + 32) else c.

Fixpoint lower (s : string) : string :=
  match s with
  | EmptyString => EmptyString
  | String c rest => String (lower_ascii c) (lower rest)
  end.

(** [ALTER TABLE users ADD COLUMN c TEXT]: refused when there is no table
    or when a column of that name, in any case, is there; otherwise the
    rows there read NULL in the new column. *)
Definition add_column (c : string) (file : option table) :
    sql_error + option table :=
  match file with
  | None => inl OperationalError
  | Some t =>
      if decide (lower c ∈ lower <$> columns t) then inl OperationalError
      else inr (Some (mkTable (columns t ++ [c]) (insert c Null <$> rows t)))
  end.

(** [migrate_db]; a statement that fails leaves the file as it was. *)
Definition migrate_db (file : option table) : (sql_error + unit) * option table :=
  let cols := table_info file in
  if decide ("joined_at" ∉ cols) then
    match add_column "joined_at" file with
    | inl e => (inl e, file)
    | inr file' => (inr tt, file')
    end
  else (inr tt, file).

(** The database part of [setup_hook]: [init_db()] then [migrate_db()]. *)
Definition setup_hook (file : option table) : (sql_error + unit) * option table :=
  migrate_db (init_db file).


End Schema.

(** ** Sample data: the scenarios of the specification *)

Module Scenario.

Definition guild0 : Guild :=
  {| get_channel := λ _, None; system_channel := Some 7 |}.

Definition member (uid : Z) (joined : option datetime) : Member :=
  {| member_id := uid; bot := false; mention := "<@" +:+ pretty uid +:+ ">";
     display_name := "user"; display_avatar_url := "https://cdn/avatar.png";
     member_joined_at := joined; guild := guild0 |}.

Definition as_bot (m : Member) : Member :=
  {| member_id := member_id m; bot := true; mention := mention m;
     display_name := display_name m;
     display_avatar_url := display_avatar_url m;
     member_joined_at := member_joined_at m; guild := guild m |}.

Definition slash (uid : Z) : Interaction :=
  {| interaction_user := member uid None |}.

(** User 42 after one check-in on 2024-01-01. *)
Definition table42 : Table :=
  {[ 42 := mkRow 100000 1 (Some "2024-01-01") None ]}.

(** The stored [last_checkin] of a user who has checked in [n] times, on
    2024-01-01 and 2024-01-02 in turn. *)
Definition day_of (n : Z) : option string :=
  if decide (n = 0) then None
  else if Z.even n then Some "2024-01-02" else Some "2024-01-01".

(** User 42 after 92233720368547 granted check-ins: one more reward does
    not fit the column. *)
Definition table_full : Table :=
  {[ 42 := mkRow 9223372036854700000 92233720368547 (Some "2024-01-01") None ]}.


(** User 99 after a join event on 2024-03-01. *)
Definition table99 : Table :=
  {[ 99 := mkRow 0 0 None (Some "2024-03-01") ]}.

End Scenario.

(** * Properties *)

(** ** Formatting and the scenarios, run on the model *)

Example format_won_reward : format_won DAILY_REWARD = "100,000₩".
Proof. vm_compute. reflexivity. Qed.

Example format_won_small : format_won 999 = "999₩".
Proof. vm_compute. reflexivity. Qed.

Example format_won_big : format_won 1234567 = "1,234,567₩".
Proof. vm_compute. reflexivity. Qed.

Example format_won_neg : format_won (-1000) = "-1,000₩".
Proof. vm_compute. reflexivity. Qed.

Example strftime_Ymd_example :
  strftime_Ymd (mkDatetime 2024 3 1) = "2024-03-01".
Proof. vm_compute. reflexivity. Qed.

Example scenario_user42 :
  let t1 := handle (CommandProfile (Scenario.slash 42)) (init_db None) in
  let t2 := handle (CommandCheckin (Scenario.slash 42) "2024-01-01") t1 in
  let t3 := handle (CommandCheckin (Scenario.slash 42) "2024-01-01") t2 in
  let t4 := handle (CommandCheckin (Scenario.slash 42) "2024-01-02") t3 in
  t1 !! 42 = Some default_row ∧
  t2 !! 42 = Some (mkRow 100000 1 (Some "2024-01-01") None) ∧
  t3 = t2 ∧
  t4 !! 42 = Some (mkRow 200000 2 (Some "2024-01-02") None).
Proof. vm_compute. auto. Qed.

Example scenario_user99 :
  let t1 := handle (MemberJoin (Scenario.member 99 (Some (mkDatetime 2024 3 1)))) ∅ in
  let t2 := handle (MemberJoin (Scenario.member 99 (Some (mkDatetime 2024 3 5)))) t1 in
  t1 !! 99 = Some (mkRow 0 0 None (Some "2024-03-01")) ∧ t2 = t1.
Proof. vm_compute. auto. Qed.

(** ** The accessor *)

Section Accessor.

Context (t : Table) (uid : Z).

Lemma get_user_present r :
  t !! uid = Some r → get_user uid t = (inr (Some r), t).
Proof.
  intros Hr. unfold get_user, bind, ensure_user, select_user.
  rewrite Hr. simpl. by rewrite Hr.
Qed.

Lemma get_user_absent :
  t !! uid = None →
  get_user uid t = (inr (Some default_row), <[uid := default_row]> t).
Proof.
  intros Hr. unfold get_user, bind, ensure_user, select_user.
  rewrite Hr. simpl. by rewrite lookup_insert_eq.
Qed.

(** [get_user] never raises and never returns [None]. *)
Lemma get_user_total :
  ∃ r t1, get_user uid t = (inr (Some r), t1) ∧ t1 !! uid = Some r ∧
          (∀ u, u ≠ uid → t1 !! u = t !! u) ∧
          (∀ u r0, t !! u = Some r0 → t1 !! u = Some r0).
Proof.
  destruct (t !! uid) as [r|] eqn:Hr.
  - exists r, t. rewrite (get_user_present r Hr). auto.
  - exists default_row, (<[uid := default_row]> t).
    rewrite (get_user_absent Hr). split; [done|].
    split; [apply lookup_insert_eq|].
    split.
    + intros u Hu. by rewrite lookup_insert_ne.
    + intros u r0 Hu. rewrite lookup_insert_ne; [done|]. congruence.
Qed.

End Accessor.

(** C3: the first get-or-create access for a user_id that has no row
    yields (and stores) a record with balance 0, total_checkins 0,
    last_checkin null and joined_at null. *)
Theorem get_user_first_access (t : Table) (uid : Z) :
  t !! uid = None →
  ∃ r t1, get_user uid t = (inr (Some r), t1) ∧
          t1 = <[uid := r]> t ∧
          balance r = 0 ∧ total_checkins r = 0 ∧
          last_checkin r = None ∧ joined_at r = None.
Proof.
  intros Hnew. exists default_row, (<[uid := default_row]> t).
  rewrite (get_user_absent t uid Hnew). by repeat split.
Qed.

Lemma get_user_first_access_witness :
  ∃ r t1, get_user 42 (init_db None) = (inr (Some r), t1) ∧
          t1 = <[42 := r]> (init_db None) ∧
          balance r = 0 ∧ total_checkins r = 0 ∧
          last_checkin r = None ∧ joined_at r = None.
Proof. apply (get_user_first_access (init_db None) 42). reflexivity. Defined.

(** C4: get-or-create is idempotent.  From any table the call returns a
    record [r]; a second call returns the same [r] and leaves the table
    as the first call left it (no second row); a row that existed before
    is returned as it was, with the table untouched (no reset); no other
    user's row is affected; the table holds exactly one row under the
    user_id, and the first call adds at most one row. *)
Theorem get_user_idempotent (t : Table) (uid : Z) :
  ∃ r t1, get_user uid t = (inr (Some r), t1) ∧
          get_user uid t1 = (inr (Some r), t1) ∧
          t1 !! uid = Some r ∧
          (∀ r0, t !! uid = Some r0 → r = r0 ∧ t1 = t) ∧
          (∀ u, u ≠ uid → t1 !! u = t !! u) ∧
          (size t1 ≤ S (size t))%nat.
Proof.
  destruct (t !! uid) as [r|] eqn:Hr.
  - exists r, t. rewrite (get_user_present t uid r Hr).
    repeat split; auto; congruence.
  - exists default_row, (<[uid := default_row]> t).
    rewrite (get_user_absent t uid Hr).
    rewrite (get_user_present _ uid default_row) by apply lookup_insert_eq.
    repeat split; try done.
    + apply lookup_insert_eq.
    + intros u Hu. by rewrite lookup_insert_ne.
    + by rewrite map_size_insert_None.
Qed.

(** ** Check-in *)

Lemma alter_after_get_user (t t1 : Table) (uid : Z) (r : Row) (f : Row → Row) :
  get_user uid t = (inr (Some r), t1) →
  alter f uid t1 = <[uid := f r]> t.
Proof.
  intros Hget. apply map_eq. intros u.
  destruct (t !! uid) as [r0|] eqn:Hr.
  - rewrite (get_user_present t uid r0 Hr) in Hget. simplify_eq.
    rewrite lookup_alter, lookup_insert.
    case_decide; simplify_eq; [by rewrite Hr | done].
  - rewrite (get_user_absent t uid Hr) in Hget. simplify_eq.
    rewrite lookup_alter, !lookup_insert.
    repeat case_decide; by simplify_eq.
Qed.

(** The three outcomes of [checkin], in terms of the record that
    [get_user] reads: rejected, granted, or an [OverflowError] at the
    binding of the new balance or count, which rolls the transaction
    back. *)
Lemma checkin_unfold (interaction : Interaction) (today : string)
    (t t1 : Table) (r : Row) :
  get_user (member_id (interaction_user interaction)) t = (inr (Some r), t1) →
  checkin interaction today t =
    if decide (last_checkin r = Some today)
    then (inr (SendEmbed (already_embed interaction (balance r)) true), t1)
    else if decide (fits_granted r)
    then (inr (SendEmbed
                 (granted_embed interaction (balance r + DAILY_REWARD)
                    (total_checkins r + 1)) false),
          <[member_id (interaction_user interaction) := granted_row r today]> t)
    else (inl OverflowError, t).
Proof.
  intros Hget. unfold checkin, with_db, bind at 1. unfold bind at 1.
  rewrite Hget. simpl. unfold bind at 1. simpl.
  case_decide; [done|].
  unfold update_checkin, bind_int, fits_granted, bind, ret, raise.
  destruct (decide (in_int64 (balance r + DAILY_REWARD))) as [Hb|Hb]; simpl.
  - destruct (decide (in_int64 (total_checkins r + 1))) as [Hn|Hn]; simpl.
    + rewrite decide_True by done.
      by rewrite (alter_after_get_user t t1 _ r _ Hget).
    + rewrite decide_False by (by intros [_ ?]). done.
  - rewrite decide_False by (by intros [? _]). done.
Qed.

(** A row that is not there yet is zeroed, and what a check-in writes
    over a zeroed row fits. *)
Lemma fits_granted_default : fits_granted default_row.
Proof. by vm_compute. Qed.

(** A check-in raises nothing but [OverflowError], and leaves the table
    as it was when it does. *)
Lemma checkin_outcomes (interaction : Interaction) (today : string) (t : Table) :
  (∃ reply t', checkin interaction today t = (inr reply, t')) ∨
  checkin interaction today t = (inl OverflowError, t).
Proof.
  destruct (get_user_total t (member_id (interaction_user interaction)))
    as (r & t1 & Hget & _).
  rewrite (checkin_unfold interaction today t t1 r Hget).
  repeat case_decide; eauto.
Qed.

(** C1: when the stored [last_checkin] of the user equals [today], the
    check-in is rejected: the table after the handler is the table before
    it (no field of any row changes), and the reply is the private
    "already checked in" embed, whose only field shows the unchanged
    balance of the current record. *)
Theorem checkin_same_day_rejected (interaction : Interaction) (today : string)
    (t : Table) (r : Row) :
  t !! member_id (interaction_user interaction) = Some r →
  last_checkin r = Some today →
  ∃ embed,
    checkin interaction today t = (inr (SendEmbed embed true), t) ∧
    embed = already_embed interaction (balance r) ∧
    title embed = "✅ 이미 출석했어요" ∧
    fields embed = [mkField "현재 잔고" (format_won (balance r)) true].
Proof.
  intros Hr Hlast. exists (already_embed interaction (balance r)).
  rewrite (checkin_unfold interaction today t t r (get_user_present _ _ r Hr)).
  by rewrite decide_True.
Qed.

Lemma checkin_same_day_rejected_witness :
  ∃ embed,
    checkin (Scenario.slash 42) "2024-01-01" Scenario.table42 =
      (inr (SendEmbed embed true), Scenario.table42) ∧
    embed = already_embed (Scenario.slash 42) 100000 ∧
    title embed = "✅ 이미 출석했어요" ∧
    fields embed = [mkField "현재 잔고" (format_won 100000) true].
Proof.
  apply (checkin_same_day_rejected (Scenario.slash 42) "2024-01-01"
           Scenario.table42 (mkRow 100000 1 (Some "2024-01-01") None));
    reflexivity.
Defined.

Lemma run_app (evs1 evs2 : list Event) (t : Table) :
  run (evs1 ++ evs2) t = run evs2 (run evs1 t).
Proof.
  revert t. induction evs1 as [|ev evs1 IH]; intros t; simpl; [done|].
  apply IH.
Qed.

(** Every number of granted check-ins whose rewards fit the column is
    reached from the empty table, by checking in on two dates in turn. *)
Lemma grants_reachable (n : nat) :
  Z.of_nat n * DAILY_REWARD ≤ INT64_MAX →
  ∃ evs,
    run evs (init_db None) =
      {[ 42 := mkRow (Z.of_nat n * DAILY_REWARD) (Z.of_nat n)
                 (Scenario.day_of (Z.of_nat n)) None ]}.
Proof.
  induction n as [|n IH]; intros Hfit.
  - exists [CommandProfile (Scenario.slash 42)]. by vm_compute.
  - destruct IH as [evs Hevs].
    { unfold DAILY_REWARD in *. lia. }
    set (d := if Z.even (Z.of_nat (S n)) then "2024-01-02" else "2024-01-01").
    exists (evs ++ [CommandCheckin (Scenario.slash 42) d]).
    rewrite run_app, Hevs. simpl.
    erewrite checkin_unfold by (apply get_user_present, lookup_singleton_eq).
    simpl.
    assert (Scenario.day_of (Z.of_nat n) ≠ Some d) as Hday.
    { unfold Scenario.day_of, d. rewrite Nat2Z.inj_succ, Z.even_succ.
      rewrite <- Z.negb_even.
      destruct (decide (Z.of_nat n = 0)); [done|].
      by destruct (Z.even (Z.of_nat n)). }
    rewrite decide_False by done.
    rewrite decide_True; last first.
    { unfold fits_granted, in_int64, INT64_MIN, INT64_MAX, DAILY_REWARD in *.
      simpl. lia. }
    simpl. rewrite insert_singleton_eq. f_equal.
    unfold granted_row. simpl. f_equal.
    + unfold DAILY_REWARD. lia.
    + lia.
    + unfold Scenario.day_of. rewrite decide_False by lia. subst d.
      by destruct (Z.even (Z.of_nat (S n))).
Qed.

Lemma grants_reachable_Z (n : Z) :
  0 ≤ n → n * DAILY_REWARD ≤ INT64_MAX →
  ∃ evs,
    run evs (init_db None) =
      {[ 42 := mkRow (n * DAILY_REWARD) n (Scenario.day_of n) None ]}.
Proof.
  intros Hn Hfit. rewrite <- (Z2Nat.id n Hn) in Hfit |- *.
  by apply grants_reachable.
Qed.

Lemma table_full_reachable :
  ∃ evs, run evs (init_db None) = Scenario.table_full.
Proof.
  assert (0 ≤ 92233720368547) as Hpos by (by vm_compute).
  assert (92233720368547 * DAILY_REWARD ≤ INT64_MAX) as Hfit
    by (by vm_compute).
  destruct (grants_reachable_Z 92233720368547 Hpos Hfit) as [evs Hevs].
  exists evs. rewrite Hevs. reflexivity.
Qed.

(** The record on which a check-in on a new day is not granted: the
    table is the one after 92233720368547 granted check-ins of user 42
    from the empty table, the new balance 9223372036854800000 does not
    fit the INTEGER column, and the handler raises and writes nothing. *)
Lemma checkin_overflow_is_not_granted :
  (∃ evs, run evs (init_db None) = Scenario.table_full) ∧
  checkin (Scenario.slash 42) "2024-01-03" Scenario.table_full =
    (inl OverflowError, Scenario.table_full) ∧
  ¬ (∀ (interaction : Interaction) (today : string) (t t1 : Table) (r : Row),
       get_user (member_id (interaction_user interaction)) t
         = (inr (Some r), t1) →
       last_checkin r ≠ Some today →
       ∃ embed,
         checkin interaction today t =
           (inr (SendEmbed embed false),
            <[member_id (interaction_user interaction) :=
                {| balance := balance r + 100000;
                   total_checkins := total_checkins r + 1;
                   last_checkin := Some today;
                   joined_at := joined_at r |}]> t)).
Proof.
  split; [apply table_full_reachable|]. split; [by vm_compute|].
  intros Hclaim.
  destruct (Hclaim (Scenario.slash 42) "2024-01-03"
              Scenario.table_full Scenario.table_full
              (mkRow 9223372036854700000 92233720368547
                 (Some "2024-01-01") None))
    as (embed & Hembed); [reflexivity | discriminate |].
  vm_compute in Hembed. discriminate.
Qed.

(** C2, as the code has it: let [r] be the record get-or-create reads
    for the user (the stored row, or the zeroed row of a user seen for
    the first time), with [last_checkin r] different from [today] (null
    included, an earlier day included).
    - When balance + 100000 and total_checkins + 1 fit the signed 64-bit
      INTEGER columns, the check-in is granted: the table after the
      handler is the table before it with the user's row replaced, in
      one write, by [r] with balance + 100000, total_checkins + 1 and
      last_checkin = today ([joined_at] kept), and the public reply
      shows the new balance and the new total.
    - When one of them does not fit, the handler raises
      [OverflowError], sends no reply and leaves the table as it was. *)
Theorem checkin_granted (interaction : Interaction) (today : string)
    (t t1 : Table) (r : Row) :
  get_user (member_id (interaction_user interaction)) t = (inr (Some r), t1) →
  last_checkin r ≠ Some today →
  (in_int64 (balance r + 100000) → in_int64 (total_checkins r + 1) →
   ∃ embed,
     checkin interaction today t =
       (inr (SendEmbed embed false),
        <[member_id (interaction_user interaction) :=
            {| balance := balance r + 100000;
               total_checkins := total_checkins r + 1;
               last_checkin := Some today;
               joined_at := joined_at r |}]> t) ∧
     DAILY_REWARD = 100000 ∧
     embed = granted_embed interaction (balance r + DAILY_REWARD)
               (total_checkins r + 1) ∧
     title embed = "✅ 출석 완료!" ∧
     fields embed =
       [mkField "현재 잔고" (format_won (balance r + 100000)) true;
        mkField "총 출석" (format_count (total_checkins r + 1)) true]) ∧
  (¬ (in_int64 (balance r + 100000) ∧ in_int64 (total_checkins r + 1)) →
   checkin interaction today t = (inl OverflowError, t)).
Proof.
  intros Hget Hlast.
  rewrite (checkin_unfold interaction today t t1 r Hget).
  rewrite decide_False by done. split.
  - intros Hb Hn.
    exists (granted_embed interaction (balance r + DAILY_REWARD)
              (total_checkins r + 1)).
    by rewrite decide_True by done.
  - intros Hno. by rewrite decide_False by done.
Qed.

Lemma checkin_granted_witness :
  ∃ embed,
    checkin (Scenario.slash 42) "2024-01-02" Scenario.table42 =
      (inr (SendEmbed embed false),
       <[42 := mkRow 200000 2 (Some "2024-01-02") None]> Scenario.table42) ∧
    DAILY_REWARD = 100000 ∧
    embed = granted_embed (Scenario.slash 42) (100000 + DAILY_REWARD) (1 + 1) ∧
    title embed = "✅ 출석 완료!" ∧
    fields embed =
      [mkField "현재 잔고" (format_won (100000 + 100000)) true;
       mkField "총 출석" (format_count (1 + 1)) true].
Proof.
  apply (proj1 (checkin_granted (Scenario.slash 42) "2024-01-02"
                  Scenario.table42 Scenario.table42
                  (mkRow 100000 1 (Some "2024-01-01") None)
                  eq_refl ltac:(discriminate))).
  - by vm_compute.
  - by vm_compute.
Defined.

(** ** Profile *)

Lemma profile_unfold (interaction : Interaction) (t t1 : Table) (r : Row) :
  get_user (member_id (interaction_user interaction)) t = (inr (Some r), t1) →
  profile interaction t =
    (inr (SendEmbed (profile_embed interaction r) false), t1).
Proof.
  intros Hget. unfold profile, with_db, bind at 1.
  rewrite Hget. simpl. by destruct r.
Qed.

(** ** Join events *)

Lemma on_member_join_bot (member : Member) (t : Table) :
  bot member = true → on_member_join member t = (inr None, t).
Proof. intros Hbot. unfold on_member_join. by rewrite Hbot. Qed.

Lemma on_member_join_unfold (member : Member) (t t1 : Table) (r : Row) :
  bot member = false →
  get_user (member_id member) t = (inr (Some r), t1) →
  on_member_join member t =
    if truthy (joined_at r)
    then (inr (welcome member r), t1)
    else (inr (welcome member (stamped_row r (joined_str member))),
          <[member_id member := stamped_row r (joined_str member)]> t).
Proof.
  intros Hbot Hget. unfold on_member_join. rewrite Hbot.
  unfold with_db, bind at 1. unfold bind at 1. rewrite Hget. simpl.
  unfold bind at 1. simpl.
  destruct (truthy (joined_at r)) eqn:Htruthy; simpl.
  - unfold welcome. by destruct (welcome_channel member).
  - unfold bind at 1, update_joined_at.
    rewrite (alter_after_get_user t t1 _ r _ Hget).
    rewrite (get_user_present _ _ (stamped_row r (joined_str member)))
      by apply lookup_insert_eq.
    unfold welcome. by destruct (welcome_channel member).
Qed.

Lemma on_member_join_total (member : Member) (t : Table) :
  ∃ sent t', on_member_join member t = (inr sent, t').
Proof.
  destruct (bot member) eqn:Hbot.
  - rewrite on_member_join_bot by done. eauto.
  - destruct (get_user_total t (member_id member)) as (r & t1 & Hget & _).
    rewrite (on_member_join_unfold member t t1 r Hbot Hget).
    destruct (truthy (joined_at r)); eauto.
Qed.

Lemma append_empty (s1 s2 : string) : s1 +:+ s2 = "" → s1 = "" ∧ s2 = "".
Proof. destruct s1; simpl; [done | discriminate]. Qed.

(** The date string a join event carries is never empty. *)
Lemma joined_str_truthy (member : Member) :
  truthy (Some (joined_str member)) = true.
Proof.
  unfold joined_str. destruct (member_joined_at member) as [d|]; [|done].
  destruct (strftime_Ymd d) eqn:Hs; [|done].
  unfold strftime_Ymd in Hs.
  apply append_empty in Hs as [_ Hs]. discriminate.
Qed.

Lemma truthy_Some (s : string) : s ≠ "" → truthy (Some s) = true.
Proof. by destruct s. Qed.

Lemma not_truthy (x : option string) :
  truthy x = false → x = None ∨ x = Some "".
Proof. destruct x as [[|]|]; simpl; auto; discriminate. Qed.

(** ** What one event does to the table *)

Lemma get_user_current (t : Table) (uid : Z) :
  ∃ t1, get_user uid t = (inr (Some (current t uid)), t1) ∧
        (t1 = t ∨ t !! uid = None ∧ t1 = <[uid := default_row]> t).
Proof.
  unfold current. destruct (t !! uid) as [r|] eqn:Hr; simpl.
  - exists t. rewrite (get_user_present t uid r Hr). auto.
  - exists (<[uid := default_row]> t). rewrite (get_user_absent t uid Hr). auto.
Qed.

Lemma handle_effect (ev : Event) (t : Table) : effect t ev (handle ev t).
Proof.
  destruct ev as [member|interaction today|interaction|interaction]; simpl.
  - destruct (bot member) eqn:Hbot.
    + rewrite on_member_join_bot by done. constructor.
    + destruct (get_user_current t (member_id member)) as (t1 & Hget & Ht1).
      rewrite (on_member_join_unfold member t t1 _ Hbot Hget).
      destruct (truthy _) eqn:Htruthy; simpl.
      * destruct Ht1 as [->|[Hnew ->]]; by constructor.
      * by constructor.
  - destruct (get_user_current t (member_id (interaction_user interaction)))
      as (t1 & Hget & Ht1).
    rewrite (checkin_unfold interaction today t t1 _ Hget).
    case_decide; simpl.
    + destruct Ht1 as [->|[Hnew ->]]; by constructor.
    + case_decide; simpl; by constructor.
  - destruct (get_user_current t (member_id (interaction_user interaction)))
      as (t1 & Hget & Ht1).
    rewrite (profile_unfold interaction t t1 _ Hget). simpl.
    destruct Ht1 as [->|[Hnew ->]]; by constructor.
  - constructor.
Qed.

(** A rejected check-in and a join event of a bot leave the table as it
    is, whatever it holds. *)
Lemma handle_checkin_rejected (interaction : Interaction) (today : string)
    (t : Table) (r : Row) :
  t !! member_id (interaction_user interaction) = Some r →
  last_checkin r = Some today →
  handle (CommandCheckin interaction today) t = t.
Proof.
  intros Hr Hlast. simpl.
  rewrite (checkin_unfold interaction today t t r (get_user_present _ _ r Hr)).
  by rewrite decide_True.
Qed.

(** ** The join date *)

Lemma on_member_join_keeps (member : Member) (t : Table) (r : Row) :
  t !! member_id member = Some r →
  truthy (joined_at r) = true →
  snd (on_member_join member t) = t.
Proof.
  intros Hr Htruthy. destruct (bot member) eqn:Hbot.
  - by rewrite on_member_join_bot.
  - rewrite (on_member_join_unfold member t t r Hbot (get_user_present _ _ r Hr)).
    by rewrite Htruthy.
Qed.

Lemma on_member_join_stamps (member : Member) (t : Table) :
  bot member = false →
  truthy (joined_at (current t (member_id member))) = false →
  snd (on_member_join member t) =
    <[member_id member :=
        stamped_row (current t (member_id member)) (joined_str member)]> t.
Proof.
  intros Hbot Htruthy.
  destruct (get_user_current t (member_id member)) as (t1 & Hget & _).
  rewrite (on_member_join_unfold member t t1 _ Hbot Hget).
  by rewrite Htruthy.
Qed.

Lemma current_truthy (t : Table) (uid : Z) :
  truthy (joined_at (current t uid)) = true →
  t !! uid = Some (current t uid).
Proof. unfold current. by destruct (t !! uid). Qed.

(** A row whose [joined_at] is the empty string is one that no handler
    writes (see [run_joined_ok] below); were it put into the table by
    hand, a join event would overwrite it. *)
Lemma joined_at_empty_string_is_overwritten :
  ¬ (∀ (member : Member) (t : Table) (r : Row),
       bot member = false →
       t !! member_id member = Some r →
       joined_at r ≠ None →
       ∃ r', snd (on_member_join member t) !! member_id member = Some r' ∧
             joined_at r' = joined_at r).
Proof.
  intros Hclaim.
  destruct (Hclaim (Scenario.member 99 (Some (mkDatetime 2024 3 5)))
              {[ 99 := mkRow 0 0 None (Some "") ]}
              (mkRow 0 0 None (Some "")))
    as (r' & Hr' & Hjoined); [reflexivity | reflexivity | discriminate |].
  vm_compute in Hr'. by simplify_eq.
Qed.

(** Join events on any table, in terms of Python truthiness: a stored
    non-empty [joined_at] is kept; a non-bot join event leaves a
    non-empty one behind, which a second join event keeps; and a join
    event changes [joined_at] only where it was null or empty. *)
Lemma join_events_and_joined_at :
  (∀ (member : Member) (t : Table) (r : Row) (d : string),
     t !! member_id member = Some r →
     joined_at r = Some d → d ≠ "" →
     snd (on_member_join member t) = t) ∧
  (∀ (m1 m2 : Member) (t : Table),
     bot m1 = false → member_id m2 = member_id m1 →
     ∃ r1 d1,
       handle (MemberJoin m1) t !! member_id m1 = Some r1 ∧
       joined_at r1 = Some d1 ∧ d1 ≠ "" ∧
       (truthy (joined_at (current t (member_id m1))) = false →
        d1 = joined_str m1) ∧
       handle (MemberJoin m2) (handle (MemberJoin m1) t) =
         handle (MemberJoin m1) t) ∧
  (∀ (member : Member) (t : Table) (u : Z) (r r' : Row),
     t !! u = Some r →
     handle (MemberJoin member) t !! u = Some r' →
     joined_at r' ≠ joined_at r →
     u = member_id member ∧ bot member = false ∧
     (joined_at r = None ∨ joined_at r = Some "")).
Proof.
  split; [|split].
  - intros member t r d Hr Hjoined Hd.
    apply (on_member_join_keeps member t r Hr).
    rewrite Hjoined. by apply truthy_Some.
  - intros m1 m2 t Hbot Hid.
    assert (∀ r, truthy (joined_at r) = true →
                 ∃ d, joined_at r = Some d ∧ d ≠ "") as Hnonempty.
    { intros [b n l [[|c s]|]] Ht; simplify_eq/=. by exists (String c s). }
    destruct (truthy (joined_at (current t (member_id m1)))) eqn:Htruthy.
    + pose proof (current_truthy t _ Htruthy) as Hr.
      destruct (Hnonempty _ Htruthy) as (d & Hd & Hne).
      exists (current t (member_id m1)), d. simpl.
      rewrite (on_member_join_keeps m1 t _ Hr Htruthy).
      repeat split; try done.
      apply (on_member_join_keeps m2 t (current t (member_id m1))); [|done].
      by rewrite Hid.
    + exists (stamped_row (current t (member_id m1)) (joined_str m1)),
             (joined_str m1). simpl.
      rewrite (on_member_join_stamps m1 t Hbot Htruthy).
      pose proof (joined_str_truthy m1) as Hstr.
      repeat split; try done.
      * apply lookup_insert_eq.
      * intros Hempty. by rewrite Hempty in Hstr.
      * apply (on_member_join_keeps m2 _
                 (stamped_row (current t (member_id m1)) (joined_str m1)));
          [|done].
        rewrite Hid. apply lookup_insert_eq.
  - intros member t u r r' Hr Hr' Hchanged.
    simpl in Hr'. destruct (bot member) eqn:Hbot.
    { rewrite on_member_join_bot in Hr' by done. simpl in Hr'. congruence. }
    destruct (truthy (joined_at (current t (member_id member)))) eqn:Htruthy.
    + rewrite (on_member_join_keeps member t _ (current_truthy t _ Htruthy)
                 Htruthy) in Hr'.
      congruence.
    + rewrite (on_member_join_stamps member t Hbot Htruthy) in Hr'.
      rewrite lookup_insert in Hr'.
      case_decide; [|congruence]. subst u.
      unfold current in Htruthy. rewrite Hr in Htruthy. simpl in Htruthy.
      repeat split; try done. by apply not_truthy.
Qed.

Lemma effect_joined_ok (t t' : Table) (ev : Event) :
  effect t ev t' → joined_ok t → joined_ok t'.
Proof.
  intros Heff Hok.
  assert (∀ uid, joined_at (current t uid) ≠ Some "") as Hcur.
  { intros uid. unfold current.
    destruct (t !! uid) as [r|] eqn:Hr; simpl; [|done]. by apply (Hok uid r). }
  destruct Heff as [ev|ev uid Hnew|member Hbot Htruthy|interaction today Hlast].
  - done.
  - by apply map_Forall_insert_2.
  - apply map_Forall_insert_2; [|done]. simpl.
    pose proof (joined_str_truthy member) as Hstr.
    intros Hempty. simplify_eq. by rewrite Hempty in Hstr.
  - apply map_Forall_insert_2; [|done]. simpl. apply Hcur.
Qed.

(** From rows as get-or-create makes them, no sequence of events stores
    an empty join date. *)
Lemma run_joined_ok (evs : list Event) (t : Table) :
  joined_ok t → joined_ok (run evs t).
Proof.
  revert t. induction evs as [|ev evs IH]; intros t Hok; simpl; [done|].
  apply IH. by apply (effect_joined_ok t _ ev (handle_effect ev t)).
Qed.

(** C5: once [joined_at] is non-null it is immutable.  In every table
    that the handlers produce from rows as get-or-create makes them (the
    empty table included), by any sequence of events:
    - a join event (of a bot or not, with any observed date) for a user
      whose record has a non-null [joined_at] leaves the record, and the
      whole table, as it is;
    - after a non-bot join event the user's [joined_at] is non-null (the
      date of that event when it was null before), and a second join
      event of the same user, with any date, leaves the table as the
      first one left it;
    - a join event changes the [joined_at] of a stored row only for its
      own non-bot member and only when the stored value is null. *)
Theorem joined_at_immutable_once_set (evs : list Event) (t0 : Table) :
  map_Forall (λ _ r0, r0 = default_row) t0 →
  (∀ (member : Member) (r : Row),
     run evs t0 !! member_id member = Some r →
     joined_at r ≠ None →
     snd (on_member_join member (run evs t0)) = run evs t0) ∧
  (∀ (m1 m2 : Member),
     bot m1 = false → member_id m2 = member_id m1 →
     ∃ r1 d1,
       handle (MemberJoin m1) (run evs t0) !! member_id m1 = Some r1 ∧
       joined_at r1 = Some d1 ∧
       (joined_at (current (run evs t0) (member_id m1)) = None →
        d1 = joined_str m1) ∧
       handle (MemberJoin m2) (handle (MemberJoin m1) (run evs t0)) =
         handle (MemberJoin m1) (run evs t0)) ∧
  (∀ (member : Member) (u : Z) (r r' : Row),
     run evs t0 !! u = Some r →
     handle (MemberJoin member) (run evs t0) !! u = Some r' →
     joined_at r' ≠ joined_at r →
     u = member_id member ∧ bot member = false ∧ joined_at r = None).
Proof.
  intros Hfresh.
  assert (joined_ok (run evs t0)) as Hok.
  { apply run_joined_ok. intros u r Hr. by rewrite (Hfresh u r Hr). }
  destruct join_events_and_joined_at as (Hkeep & Htwice & Honly).
  split; [|split].
  - intros member r Hr Hjoined.
    destruct (joined_at r) as [d|] eqn:Hd; [|done].
    apply (Hkeep member _ r d Hr Hd).
    intros ->. by apply (Hok _ r Hr).
  - intros m1 m2 Hbot Hid.
    destruct (Htwice m1 m2 (run evs t0) Hbot Hid)
      as (r1 & d1 & Hr1 & Hd1 & _ & Hstr & Hsame).
    exists r1, d1. repeat split; try done.
    intros Hnull. apply Hstr. by rewrite Hnull.
  - intros member u r r' Hr Hr' Hchanged.
    destruct (Honly member (run evs t0) u r r' Hr Hr' Hchanged)
      as (Hu & Hbot & [Hnull|Hempty]); [done|].
    by destruct (Hok u r Hr).
Qed.

Lemma joined_at_immutable_once_set_witness :
  snd (on_member_join (Scenario.member 99 (Some (mkDatetime 2024 3 5)))
         (run [MemberJoin (Scenario.member 99 (Some (mkDatetime 2024 3 1)))]
            (init_db None))) =
  run [MemberJoin (Scenario.member 99 (Some (mkDatetime 2024 3 1)))]
    (init_db None).
Proof.
  apply (proj1 (joined_at_immutable_once_set
                  [MemberJoin (Scenario.member 99 (Some (mkDatetime 2024 3 1)))]
                  (init_db None) (map_Forall_empty _))
           (Scenario.member 99 (Some (mkDatetime 2024 3 5)))
           (mkRow 0 0 None (Some "2024-03-01"))).
  - by vm_compute.
  - discriminate.
Defined.

(** ** Frames *)

Lemma effect_joined_of (t t' : Table) (ev : Event) :
  effect t ev t' → is_join ev = false →
  ∀ u, joined_of t' u = joined_of t u.
Proof.
  intros Heff Hev u. unfold joined_of.
  destruct Heff as [ev|ev uid Hnew|member Hbot Htruthy|interaction today Hlast];
    try done.
  - rewrite lookup_insert. case_decide; [|done]. subst. by rewrite Hnew.
  - rewrite lookup_insert. case_decide; [|done]. subst. simpl.
    unfold current. by destruct (t !! _).
Qed.

Lemma effect_counters (t t' : Table) (ev : Event) :
  effect t ev t' → is_checkin ev = false →
  ∀ u, counters t' u = counters t u.
Proof.
  intros Heff Hev u. unfold counters, current.
  destruct Heff as [ev|ev uid Hnew|member Hbot Htruthy|interaction today Hlast];
    try done.
  - rewrite lookup_insert. case_decide; [|done]. subst. by rewrite Hnew.
  - rewrite lookup_insert. case_decide; [|done]. by subst.
Qed.

Lemma effect_rows_stay (t t' : Table) (ev : Event) :
  effect t ev t' → ∀ u, is_Some (t !! u) → is_Some (t' !! u).
Proof.
  intros Heff u Hu.
  destruct Heff; try done; rewrite lookup_insert; by case_decide.
Qed.

(** A command leaves a row behind for its user. *)
Lemma command_creates_row (interaction : Interaction) (t : Table) :
  let uid := member_id (interaction_user interaction) in
  t !! uid = None →
  (∀ today, handle (CommandCheckin interaction today) t !! uid =
            Some (granted_row default_row today)) ∧
  handle (CommandProfile interaction) t !! uid = Some default_row.
Proof.
  intros uid Hnew. subst uid. simpl. split.
  - intros today.
    rewrite (checkin_unfold interaction today t _ _ (get_user_absent _ _ Hnew)).
    rewrite decide_False by done. simpl. apply lookup_insert_eq.
  - rewrite (profile_unfold interaction t _ _ (get_user_absent _ _ Hnew)).
    simpl. apply lookup_insert_eq.
Qed.

(** User 42, never seen, uses a command first: the row that results has a
    null [joined_at], after a check-in as after a profile query. *)
Lemma first_command_leaves_joined_at_null :
  init_db None !! 42 = None ∧
  (∃ r, handle (CommandCheckin (Scenario.slash 42) "2024-01-01") (init_db None)
          !! 42 = Some r ∧ joined_at r = None) ∧
  (∃ r, handle (CommandProfile (Scenario.slash 42)) (init_db None)
          !! 42 = Some r ∧ joined_at r = None) ∧
  ¬ (∀ (interaction : Interaction) (today : string) (t : Table),
       t !! member_id (interaction_user interaction) = None →
       ∃ r d, handle (CommandCheckin interaction today) t
                !! member_id (interaction_user interaction) = Some r ∧
              joined_at r = Some d).
Proof.
  split; [reflexivity|]. split; [|split].
  - eexists. split; [vm_compute; reflexivity | reflexivity].
  - eexists. split; [vm_compute; reflexivity | reflexivity].
  - intros Hclaim.
    destruct (Hclaim (Scenario.slash 42) "2024-01-01" (init_db None))
      as (r & d & Hr & Hd); [reflexivity|].
    vm_compute in Hr. by simplify_eq.
Qed.

(** C6, as the code has it: [joined_at] is written by join events only.
    - A check-in and a profile query leave the stored join date of every
      user as it was.
    - For a never-seen user whose first observation is a check-in or a
      profile query, the row that results has a null [joined_at].
    - The join event of a non-bot member whose stored [joined_at] is null
      (or empty, or who has no row) sets it to the date string of that
      event. *)
Theorem joined_at_set_by_join_events_only
    (interaction : Interaction) (today : string) (t : Table) :
  let uid := member_id (interaction_user interaction) in
  (∀ u, joined_of (handle (CommandCheckin interaction today) t) u = joined_of t u) ∧
  (∀ u, joined_of (handle (CommandProfile interaction) t) u = joined_of t u) ∧
  (t !! uid = None →
   (∃ r, handle (CommandCheckin interaction today) t !! uid = Some r ∧
         joined_at r = None) ∧
   (∃ r, handle (CommandProfile interaction) t !! uid = Some r ∧
         joined_at r = None)) ∧
  (∀ member : Member,
     bot member = false →
     truthy (joined_of t (member_id member)) = false →
     joined_of (handle (MemberJoin member) t) (member_id member) =
       Some (joined_str member)).
Proof.
  intros uid. split; [|split; [|split]].
  - intros u. by apply (effect_joined_of t _ _ (handle_effect _ t)).
  - intros u. by apply (effect_joined_of t _ _ (handle_effect _ t)).
  - intros Hnew.
    destruct (command_creates_row interaction t Hnew) as [Hc Hp]. split.
    + exists (granted_row default_row today). by rewrite <- (Hc today).
    + exists default_row. by rewrite <- Hp.
  - intros member Hbot Htruthy. simpl.
    rewrite (on_member_join_stamps member t Hbot).
    + unfold joined_of. by rewrite lookup_insert_eq.
    + unfold joined_of in Htruthy. unfold current.
      by destruct (t !! member_id member).
Qed.

Lemma joined_at_set_by_join_events_only_witness :
  ∃ r, handle (CommandCheckin (Scenario.slash 42) "2024-01-01") (init_db None)
         !! 42 = Some r ∧ joined_at r = None.
Proof.
  apply (joined_at_set_by_join_events_only (Scenario.slash 42) "2024-01-01"
           (init_db None)).
  reflexivity.
Defined.

Lemma current_lookup_Some (t : Table) (u : Z) (r : Row) :
  t !! u = Some r → current t u = r.
Proof. intros Hr. unfold current. by rewrite Hr. Qed.

Lemma handle_checkin_granted (interaction : Interaction) (today : string)
    (t : Table) :
  let uid := member_id (interaction_user interaction) in
  last_checkin (current t uid) ≠ Some today →
  fits_granted (current t uid) →
  handle (CommandCheckin interaction today) t =
    <[uid := granted_row (current t uid) today]> t.
Proof.
  intros uid Hlast Hfits.
  destruct (get_user_current t uid) as (t1 & Hget & _).
  simpl. rewrite (checkin_unfold interaction today t t1 _ Hget).
  rewrite decide_False by done. by rewrite decide_True by done.
Qed.

Lemma handle_checkin_overflow (interaction : Interaction) (today : string)
    (t : Table) :
  let uid := member_id (interaction_user interaction) in
  last_checkin (current t uid) ≠ Some today →
  ¬ fits_granted (current t uid) →
  handle (CommandCheckin interaction today) t = t.
Proof.
  intros uid Hlast Hfits.
  destruct (get_user_current t uid) as (t1 & Hget & _).
  simpl. rewrite (checkin_unfold interaction today t t1 _ Hget).
  rewrite decide_False by done. by rewrite decide_False by done.
Qed.

(** C7: [balance] and [total_checkins] change only in the granted
    check-in, and there together.
    - A profile query, a join event and a ping leave the balance and the
      attendance count of every user as they were, and delete no row.
    - So does a check-in that is rejected because [last_checkin] equals
      [today]: it leaves the whole table as it was.
    - A granted check-in (the date differs and the new balance and count
      fit their columns) adds [DAILY_REWARD] to the balance and 1 to the
      attendance count of its user, both in the one row it writes, and
      leaves the two fields of every other user as they were.
    - A check-in whose new balance or count does not fit raises and
      leaves the whole table as it was.
    - So whatever a check-in does, for every user it leaves both fields
      as they were or moves both, by [DAILY_REWARD] and by 1. *)
Theorem counters_change_only_in_granted_checkin (t : Table) :
  (∀ ev u, is_checkin ev = false →
           counters (handle ev t) u = counters t u ∧
           (is_Some (t !! u) → is_Some (handle ev t !! u))) ∧
  (∀ interaction today r,
     t !! member_id (interaction_user interaction) = Some r →
     last_checkin r = Some today →
     handle (CommandCheckin interaction today) t = t) ∧
  (∀ interaction today,
     let uid := member_id (interaction_user interaction) in
     last_checkin (current t uid) ≠ Some today →
     fits_granted (current t uid) →
     handle (CommandCheckin interaction today) t =
       <[uid := granted_row (current t uid) today]> t ∧
     counters (handle (CommandCheckin interaction today) t) uid =
       ((counters t uid).1 + DAILY_REWARD, (counters t uid).2 + 1) ∧
     (∀ u, u ≠ uid →
           counters (handle (CommandCheckin interaction today) t) u =
             counters t u)) ∧
  (∀ interaction today,
     let uid := member_id (interaction_user interaction) in
     last_checkin (current t uid) ≠ Some today →
     ¬ fits_granted (current t uid) →
     handle (CommandCheckin interaction today) t = t) ∧
  (∀ interaction today u,
     counters (handle (CommandCheckin interaction today) t) u = counters t u ∨
     (u = member_id (interaction_user interaction) ∧
      counters (handle (CommandCheckin interaction today) t) u =
        ((counters t u).1 + DAILY_REWARD, (counters t u).2 + 1))).
Proof.
  assert (∀ interaction today,
     let uid := member_id (interaction_user interaction) in
     last_checkin (current t uid) ≠ Some today →
     fits_granted (current t uid) →
     handle (CommandCheckin interaction today) t =
       <[uid := granted_row (current t uid) today]> t ∧
     counters (handle (CommandCheckin interaction today) t) uid =
       ((counters t uid).1 + DAILY_REWARD, (counters t uid).2 + 1) ∧
     (∀ u, u ≠ uid →
           counters (handle (CommandCheckin interaction today) t) u =
             counters t u)) as Hgranted.
  { intros interaction today uid Hlast Hfits.
    rewrite (handle_checkin_granted interaction today t Hlast Hfits).
    split; [done|]. split.
    + unfold counters. unfold current at 1 3. by rewrite lookup_insert_eq.
    + intros u Hu. unfold counters, current. by rewrite lookup_insert_ne. }
  split; [|split; [|split; [|split]]].
  - intros ev u Hev. split.
    + by apply (effect_counters t _ ev (handle_effect ev t)).
    + apply (effect_rows_stay t _ ev (handle_effect ev t)).
  - intros interaction today r. apply handle_checkin_rejected.
  - done.
  - intros interaction today. apply handle_checkin_overflow.
  - intros interaction today u.
    set (uid := member_id (interaction_user interaction)).
    destruct (decide (last_checkin (current t uid) = Some today)) as [Hlast|Hlast].
    { left. destruct (t !! uid) as [r|] eqn:Hr.
      - rewrite (handle_checkin_rejected interaction today t r Hr); [done|].
        by rewrite <- (current_lookup_Some t uid r Hr).
      - unfold current in Hlast. by rewrite Hr in Hlast. }
    destruct (decide (fits_granted (current t uid))) as [Hfits|Hfits].
    + destruct (Hgranted interaction today Hlast Hfits) as (_ & Hu & Hother).
      destruct (decide (u = uid)) as [->|Hne]; [by right|].
      left. by apply Hother.
    + left. by rewrite (handle_checkin_overflow interaction today t Hlast Hfits).
Qed.

Lemma counters_change_only_in_granted_checkin_witness :
  handle (CommandCheckin (Scenario.slash 42) "2024-01-01") Scenario.table42 =
    Scenario.table42 ∧
  counters (handle (CommandCheckin (Scenario.slash 42) "2024-01-02")
              Scenario.table42) 42 = (100000 + DAILY_REWARD, 1 + 1).
Proof.
  destruct (counters_change_only_in_granted_checkin Scenario.table42)
    as (_ & Hrejected & Hgranted & _).
  split.
  - apply (Hrejected (Scenario.slash 42) "2024-01-01"
             (mkRow 100000 1 (Some "2024-01-01") None)); reflexivity.
  - apply (Hgranted (Scenario.slash 42) "2024-01-02").
    + discriminate.
    + by vm_compute.
Defined.

(** ** Bots *)

(** C8: the join event of a bot is ignored: the handler returns at once,
    the table (rows present and their fields) is as before, and nothing
    is sent to any channel. *)
Theorem bot_join_ignored (member : Member) (t : Table) :
  bot member = true →
  on_member_join member t = (inr None, t).
Proof. apply on_member_join_bot. Qed.

Lemma bot_join_ignored_witness :
  on_member_join (Scenario.as_bot (Scenario.member 7 (Some (mkDatetime 2024 3 1))))
    Scenario.table42 = (inr None, Scenario.table42).
Proof.
  apply (bot_join_ignored
           (Scenario.as_bot (Scenario.member 7 (Some (mkDatetime 2024 3 1))))
           Scenario.table42).
  reflexivity.
Defined.

(** ** Start-up *)

(** C9: without DISCORD_TOKEN in the environment the module ends in the
    raise of [RuntimeError]; [client.run] is not reached, with no token
    whatsoever. *)
Theorem startup_without_token_raises (environ : gmap string string) :
  environ !! "DISCORD_TOKEN" = None →
  startup environ = RuntimeError "DISCORD_TOKEN이 .env에 없습니다." ∧
  ∀ token, startup environ ≠ ClientRun token.
Proof. intros Hnone. unfold startup. by rewrite Hnone. Qed.

Lemma startup_without_token_raises_witness :
  startup {[ "PORT" := "10000" ]} = RuntimeError "DISCORD_TOKEN이 .env에 없습니다." ∧
  ∀ token, startup {[ "PORT" := "10000" ]} ≠ ClientRun token.
Proof.
  apply (startup_without_token_raises {[ "PORT" := "10000" ]}). reflexivity.
Defined.

(** An empty DISCORD_TOKEN is as fatal as a missing one, and any other
    token is handed to [client.run]. *)
Lemma startup_with_token (environ : gmap string string) (token : string) :
  environ !! "DISCORD_TOKEN" = Some token →
  startup environ =
    if decide (token = "") then RuntimeError "DISCORD_TOKEN이 .env에 없습니다."
    else ClientRun token.
Proof.
  intros Htok. unfold startup. rewrite Htok.
  destruct token; by simpl.
Qed.

(** ** The ledger invariant *)

Lemma ledger_ok_current (t : Table) (uid : Z) :
  ledger_ok t →
  balance (current t uid) = total_checkins (current t uid) * DAILY_REWARD.
Proof.
  intros Hok. unfold current.
  destruct (t !! uid) as [r|] eqn:Hr; simpl; [|done].
  by apply (Hok uid r).
Qed.

Lemma effect_ledger_ok (t t' : Table) (ev : Event) :
  effect t ev t' → ledger_ok t → ledger_ok t'.
Proof.
  intros Heff Hok.
  destruct Heff as [ev|ev uid Hnew|member Hbot Htruthy|interaction today Hlast].
  - done.
  - by apply map_Forall_insert_2.
  - apply map_Forall_insert_2; [|done]. simpl.
    by apply ledger_ok_current.
  - apply map_Forall_insert_2; [|done]. simpl.
    rewrite (ledger_ok_current t _ Hok). lia.
Qed.

Lemma run_ledger_ok (evs : list Event) (t : Table) :
  ledger_ok t → ledger_ok (run evs t).
Proof.
  revert t. induction evs as [|ev evs IH]; intros t Hok; simpl; [done|].
  apply IH. by apply (effect_ledger_ok t _ ev (handle_effect ev t)).
Qed.

(** C10: start from a table in which every row is as get-or-create makes
    it (the empty table included) and process any sequence of join
    events, check-ins, profile queries and pings: in the table that
    results, every row has [balance = total_checkins * DAILY_REWARD]. *)
Theorem balance_is_checkins_times_reward (evs : list Event) (t : Table)
    (u : Z) (r : Row) :
  map_Forall (λ _ r0, r0 = default_row) t →
  run evs t !! u = Some r →
  balance r = total_checkins r * DAILY_REWARD.
Proof.
  intros Hfresh Hr.
  assert (ledger_ok t) as Hok.
  { intros u0 r0 Hr0. by rewrite (Hfresh u0 r0 Hr0). }
  by apply (run_ledger_ok evs t Hok u r).
Qed.

Lemma balance_is_checkins_times_reward_witness :
  balance (mkRow 200000 2 (Some "2024-01-02") (Some "2024-03-01")) =
  total_checkins (mkRow 200000 2 (Some "2024-01-02") (Some "2024-03-01"))
    * DAILY_REWARD.
Proof.
  apply (balance_is_checkins_times_reward
           [CommandProfile (Scenario.slash 42);
            CommandCheckin (Scenario.slash 42) "2024-01-01";
            MemberJoin (Scenario.member 42 (Some (mkDatetime 2024 3 1)));
            CommandCheckin (Scenario.slash 42) "2024-01-01";
            CommandCheckin (Scenario.slash 42) "2024-01-02"]
           (init_db None) 42).
  - apply map_Forall_empty.
  - vm_compute. reflexivity.
Defined.


(** * Further properties *)

(** ** One event, one user *)

Lemma effect_row_step (t t' : Table) (ev : Event) (u : Z) :
  effect t ev t' → row_step ev (current t u) (current t' u).
Proof.
  intros Heff.
  destruct Heff as [ev|ev uid Hnew|member Hbot Htruthy|interaction today Hlast].
  - constructor.
  - unfold current. rewrite lookup_insert. case_decide; [|constructor].
    subst. rewrite Hnew. constructor.
  - unfold current at 2. rewrite lookup_insert. case_decide; [|constructor].
    subst. simpl. by eapply row_stamp.
  - unfold current at 2. rewrite lookup_insert. case_decide; [|constructor].
    subst. simpl. by eapply row_grant.
Qed.

Lemma handle_row_step (ev : Event) (t : Table) (u : Z) :
  row_step ev (current t u) (current (handle ev t) u).
Proof. apply effect_row_step, handle_effect. Qed.

(** The handler of an event reads and writes the row of its user only. *)
Lemma handle_other (ev : Event) (t : Table) (u : Z) :
  u ≠ event_user ev → handle ev t !! u = t !! u.
Proof.
  intros Hu.
  assert (∀ uid r t1, uid ≠ u → get_user uid t = (inr (Some r), t1) →
                      t1 !! u = t !! u) as Hget.
  { intros uid r t1 Hne Hg.
    destruct (get_user_total t uid) as (r0 & t0 & Hg0 & _ & Hother & _).
    rewrite Hg0 in Hg. simplify_eq. by apply Hother. }
  destruct ev as [member|interaction today|interaction|interaction];
    simpl in *.
  - destruct (bot member) eqn:Hbot.
    { by rewrite on_member_join_bot. }
    destruct (get_user_current t (member_id member)) as (t1 & Hg & _).
    rewrite (on_member_join_unfold member t t1 _ Hbot Hg).
    destruct (truthy _); simpl.
    + by eapply Hget.
    + by rewrite lookup_insert_ne.
  - destruct (get_user_current t (member_id (interaction_user interaction)))
      as (t1 & Hg & _).
    rewrite (checkin_unfold interaction today t t1 _ Hg).
    case_decide; simpl.
    + by eapply Hget.
    + case_decide; simpl; [by rewrite lookup_insert_ne | done].
  - destruct (get_user_current t (member_id (interaction_user interaction)))
      as (t1 & Hg & _).
    rewrite (profile_unfold interaction t t1 _ Hg). simpl. by eapply Hget.
  - done.
Qed.

Lemma handle_rows_stay (ev : Event) (t : Table) (u : Z) :
  is_Some (t !! u) → is_Some (handle ev t !! u).
Proof. apply (effect_rows_stay t _ ev (handle_effect ev t)). Qed.

Lemma run_rows_stay (evs : list Event) (t : Table) (u : Z) :
  is_Some (t !! u) → is_Some (run evs t !! u).
Proof.
  revert t. induction evs as [|ev evs IH]; intros t Hu; simpl; [done|].
  by apply IH, handle_rows_stay.
Qed.

Lemma current_lookup (t : Table) (u : Z) (r : Row) :
  t !! u = Some r → current t u = r.
Proof. intros Hr. unfold current. by rewrite Hr. Qed.

(** The two things an event can do to the counters of a user. *)
Lemma handle_counters_cases (ev : Event) (t : Table) (u : Z) :
  (counters (handle ev t) u = counters t u ∧
   last_checkin (current (handle ev t) u) = last_checkin (current t u)) ∨
  (∃ interaction d,
     ev = CommandCheckin interaction d ∧
     member_id (interaction_user interaction) = u ∧
     last_checkin (current t u) ≠ Some d ∧
     counters (handle ev t) u =
       ((counters t u).1 + DAILY_REWARD, (counters t u).2 + 1) ∧
     last_checkin (current (handle ev t) u) = Some d).
Proof.
  destruct (decide (u = event_user ev)) as [Hu|Hu]; last first.
  { left. unfold counters, current. by rewrite (handle_other ev t u Hu). }
  pose proof (handle_row_step ev t u) as Hstep. unfold counters.
  remember (current (handle ev t) u) as r' eqn:Hr'. clear Hr'.
  destruct Hstep as [|member Hev Hbot Htruthy|interaction d Hev Hlast].
  - by left.
  - by left.
  - right. exists interaction, d. by subst.
Qed.

(** ** Traces *)

(** X1: at most one reward per user and day.  Over any sequence of events
    in which every check-in (of any user) carries the date [today], the
    balance and the attendance count of a user either stay as they were
    or move once, by [DAILY_REWARD] and by 1; they stay as they were for
    a user whose stored [last_checkin] is already [today]. *)
Theorem one_grant_per_day (today : string) (u : Z) (evs : list Event) (t : Table) :
  (∀ interaction d, CommandCheckin interaction d ∈ evs → d = today) →
  (last_checkin (current t u) = Some today →
   counters (run evs t) u = counters t u) ∧
  (counters (run evs t) u = counters t u ∨
   counters (run evs t) u =
     ((counters t u).1 + DAILY_REWARD, (counters t u).2 + 1)).
Proof.
  revert t.
  assert (∀ evs t,
    (∀ interaction d, CommandCheckin interaction d ∈ evs → d = today) →
    (last_checkin (current t u) = Some today →
     counters (run evs t) u = counters t u ∧
     last_checkin (current (run evs t) u) = Some today) ∧
    (counters (run evs t) u = counters t u ∨
     counters (run evs t) u =
       ((counters t u).1 + DAILY_REWARD, (counters t u).2 + 1))) as Haux.
  { clear evs. induction evs as [|ev evs IH]; intros t Hdates; simpl.
    { auto. }
    assert (∀ interaction d, CommandCheckin interaction d ∈ evs → d = today)
      as Hrest.
    { intros i d Hin. apply (Hdates i d). by right. }
    destruct (IH (handle ev t) Hrest) as [IHdone IHany].
    destruct (handle_counters_cases ev t u)
      as [[Hc Hl]|(interaction & d & Hev & _ & Hlast & Hc & Hl)].
    - rewrite Hc, Hl in IHdone. rewrite Hc in IHany. done.
    - assert (d = today) as ->.
      { apply (Hdates interaction). rewrite Hev. by left. }
      split; [done|]. right.
      destruct (IHdone Hl) as [-> _]. done. }
  intros t Hdates. destruct (Haux evs t Hdates) as [Hdone Hany].
  split; [|done]. intros Hlast. by destruct (Hdone Hlast).
Qed.

Lemma one_grant_per_day_witness :
  counters
    (run [CommandCheckin (Scenario.slash 42) "2024-01-01";
          CommandProfile (Scenario.slash 42);
          CommandCheckin (Scenario.slash 42) "2024-01-01"]
       Scenario.table42) 42 = counters Scenario.table42 42.
Proof.
  apply (one_grant_per_day "2024-01-01" 42
           [CommandCheckin (Scenario.slash 42) "2024-01-01";
            CommandProfile (Scenario.slash 42);
            CommandCheckin (Scenario.slash 42) "2024-01-01"]
           Scenario.table42).
  - intros interaction d Hin.
    repeat (apply elem_of_cons in Hin as [Hin|Hin]; [by simplify_eq|]).
    by apply elem_of_nil in Hin.
  - reflexivity.
Defined.

Lemma run_cons (ev : Event) (evs : list Event) (t : Table) :
  run (ev :: evs) t = run evs (handle ev t).
Proof. done. Qed.

Lemma checkin_current (interaction : Interaction) (d : string) (t : Table) :
  current (handle (CommandCheckin interaction d) t)
    (member_id (interaction_user interaction)) =
  row_after (CommandCheckin interaction d)
    (current t (member_id (interaction_user interaction))).
Proof.
  simpl.
  destruct (get_user_current t (member_id (interaction_user interaction)))
    as (t1 & Hget & Ht1).
  rewrite (checkin_unfold interaction d t t1 _ Hget).
  case_decide; simpl.
  - destruct Ht1 as [->|[Hnew ->]]; [done|].
    unfold current. by rewrite lookup_insert_eq, Hnew.
  - case_decide; simpl; [|done].
    unfold current at 1. by rewrite lookup_insert_eq.
Qed.

(** X2: the check-ins of one user compose by comparing each date with
    the one stored last, for equality only.  Let [grants] count the
    dates of [dates] that differ from the date just before them (an
    earlier date that follows a later one counts).  When the stored
    balance and count fit their columns and so do the balance and count
    with [grants] rewards and [grants] attendances added, then after the
    user checks in on the dates [dates], in this order, the record is
    the one before with these added, with [last_checkin] the last of the
    dates, and with [joined_at] as it was. *)
Theorem checkins_compose (interaction : Interaction) (dates : list string)
    (t : Table) :
  let u := member_id (interaction_user interaction) in
  let r := current t u in
  let n := Z.of_nat (grants (last_checkin r) dates) in
  in_int64 (balance r) → in_int64 (total_checkins r) →
  in_int64 (balance r + n * DAILY_REWARD) → in_int64 (total_checkins r + n) →
  current (run (CommandCheckin interaction <$> dates) t) u =
    {| balance := balance r + n * DAILY_REWARD;
       total_checkins := total_checkins r + n;
       last_checkin := last_date (last_checkin r) dates;
       joined_at := joined_at r |}.
Proof.
  cbv zeta. revert t. induction dates as [|d dates IH]; intros t Hb Hn Hb' Hn'.
  { simpl. destruct (current t _); simpl. f_equal; lia. }
  rewrite fmap_cons, run_cons.
  pose proof (checkin_current interaction d t) as Hcur.
  unfold row_after in Hcur. cbn [grants] in *.
  destruct (decide (last_checkin
                      (current t (member_id (interaction_user interaction)))
                    = Some d)) as [Hlast|Hlast].
  - rewrite IH; rewrite Hcur; try done.
    unfold last_date. simpl. by rewrite Hlast.
  - rewrite Nat2Z.inj_succ in *.
    assert (fits_granted
              (current t (member_id (interaction_user interaction)))) as Hfits.
    { unfold fits_granted, in_int64, INT64_MIN, INT64_MAX, DAILY_REWARD in *.
      lia. }
    rewrite decide_True in Hcur by done.
    rewrite IH; rewrite Hcur; simpl.
    + unfold last_date. simpl. f_equal; lia.
    + apply Hfits.
    + apply Hfits.
    + unfold in_int64 in *. lia.
    + unfold in_int64 in *. lia.
Qed.

Lemma checkins_compose_witness :
  current
    (run (CommandCheckin (Scenario.slash 42) <$>
            ["2024-01-01"; "2024-01-02"; "2024-01-02"; "2024-01-01"])
       Scenario.table42) 42 =
    mkRow (100000 + 2 * DAILY_REWARD) (1 + 2) (Some "2024-01-01") None.
Proof.
  apply (checkins_compose (Scenario.slash 42)
           ["2024-01-01"; "2024-01-02"; "2024-01-02"; "2024-01-01"]
           Scenario.table42); by vm_compute.
Defined.

(** X3: over any sequence of events, no balance and no attendance count
    goes down, and no row is deleted. *)
Theorem counters_never_decrease (evs : list Event) (t : Table) (u : Z) :
  (counters t u).1 ≤ (counters (run evs t) u).1 ∧
  (counters t u).2 ≤ (counters (run evs t) u).2 ∧
  (is_Some (t !! u) → is_Some (run evs t !! u)).
Proof.
  split; [|split]; [| |apply run_rows_stay].
  - revert t. induction evs as [|ev evs IH]; intros t; simpl; [done|].
    etrans; [|apply IH].
    destruct (handle_counters_cases ev t u)
      as [[-> _]|(i & d & _ & _ & _ & -> & _)]; simpl; [done|].
    unfold DAILY_REWARD. lia.
  - revert t. induction evs as [|ev evs IH]; intros t; simpl; [done|].
    etrans; [|apply IH].
    destruct (handle_counters_cases ev t u)
      as [[-> _]|(i & d & _ & _ & _ & -> & _)]; simpl; [done|]. lia.
Qed.

(** X4: from any table (also one in which balances were edited by hand),
    what a sequence of events adds to the balance of a user is
    [DAILY_REWARD] times what it adds to the attendance count. *)
Theorem balance_gain_is_reward_per_checkin (evs : list Event) (t : Table) (u : Z) :
  (counters (run evs t) u).1 - (counters t u).1 =
  DAILY_REWARD * ((counters (run evs t) u).2 - (counters t u).2).
Proof.
  revert t. induction evs as [|ev evs IH]; intros t; simpl; [lia|].
  specialize (IH (handle ev t)).
  destruct (handle_counters_cases ev t u)
    as [[Hc _]|(i & d & _ & _ & _ & Hc & _)]; rewrite Hc in IH; simpl in IH; lia.
Qed.

Example grants_example :
  grants (Some "2024-01-01")
    ["2024-01-01"; "2024-01-02"; "2024-01-02"; "2024-01-01"] = 2%nat.
Proof. reflexivity. Qed.

Lemma handle_joined_kept (ev : Event) (t : Table) (u : Z) :
  truthy (joined_at (current t u)) = true →
  joined_at (current (handle ev t) u) = joined_at (current t u).
Proof.
  intros Htruthy. pose proof (handle_row_step ev t u) as Hstep.
  remember (current (handle ev t) u) as r' eqn:Hr'. clear Hr'.
  destruct Hstep as [|member Hev Hbot Hfalse|interaction d Hev Hlast];
    [done| |done].
  by rewrite Htruthy in Hfalse.
Qed.

(** X5: a stored join date that is not the empty string survives every
    sequence of events (join events with other dates, check-ins, profile
    queries, pings, of this user or of others): the user's row is still
    there and carries the same [joined_at]. *)
Theorem joined_at_survives_traces (evs : list Event) (t : Table) (u : Z)
    (r : Row) (d : string) :
  t !! u = Some r →
  joined_at r = Some d → d ≠ "" →
  ∃ r', run evs t !! u = Some r' ∧ joined_at r' = Some d.
Proof.
  intros Hr Hjoined Hd.
  destruct (run_rows_stay evs t u) as [r' Hr']; [by eexists|].
  exists r'. split; [done|].
  rewrite <- (current_lookup _ _ _ Hr').
  assert (joined_at (current t u) = Some d) as Hcur.
  { by rewrite (current_lookup _ _ _ Hr). }
  clear Hr Hr' Hjoined. revert t Hcur.
  induction evs as [|ev evs IH]; intros t Hcur; simpl; [done|].
  apply IH. rewrite handle_joined_kept; [done|].
  rewrite Hcur. by apply truthy_Some.
Qed.

Lemma joined_at_survives_traces_witness :
  ∃ r', run [MemberJoin (Scenario.member 99 (Some (mkDatetime 2024 3 5)));
             CommandCheckin (Scenario.slash 99) "2024-03-06";
             MemberJoin (Scenario.member 99 None)]
          Scenario.table99 !! 99 = Some r' ∧
        joined_at r' = Some "2024-03-01".
Proof.
  apply (joined_at_survives_traces
           [MemberJoin (Scenario.member 99 (Some (mkDatetime 2024 3 5)));
            CommandCheckin (Scenario.slash 99) "2024-03-06";
            MemberJoin (Scenario.member 99 None)]
           Scenario.table99 99 (mkRow 0 0 None (Some "2024-03-01"))).
  - reflexivity.
  - reflexivity.
  - discriminate.
Defined.

(** X6: the stored [last_checkin] of a user is written by that user's
    check-ins only.  After any sequence of events it is what it was
    before, or it is the date of a check-in of this user in the
    sequence; in particular it is never reset to null. *)
Theorem last_checkin_provenance (evs : list Event) (t : Table) (u : Z) :
  last_checkin (current (run evs t) u) = last_checkin (current t u) ∨
  ∃ interaction d,
    CommandCheckin interaction d ∈ evs ∧
    member_id (interaction_user interaction) = u ∧
    last_checkin (current (run evs t) u) = Some d.
Proof.
  revert t. induction evs as [|ev evs IH]; intros t; [by left|].
  rewrite run_cons.
  destruct (IH (handle ev t)) as [Hsame|(i & d & Hin & Hu & Hd)].
  - destruct (handle_counters_cases ev t u)
      as [[_ Hl]|(i & d & Hev & Hu & _ & _ & Hl)].
    + left. by rewrite Hsame.
    + right. exists i, d. rewrite Hsame, Hl, Hev.
      split; [by left|done].
  - right. exists i, d. split; [by right|done].
Qed.

(** X7: users are independent.  A sequence of events none of which is
    about user [u] leaves the row of [u] as it is, and creates none when
    there is none. *)
Theorem other_users_untouched (evs : list Event) (t : Table) (u : Z) :
  (∀ ev, ev ∈ evs → event_user ev ≠ u) →
  run evs t !! u = t !! u.
Proof.
  revert t. induction evs as [|ev evs IH]; intros t Hevs; simpl; [done|].
  rewrite IH.
  - apply handle_other. intros Hu. apply (Hevs ev); [by left|done].
  - intros ev' Hin. apply Hevs. by right.
Qed.

Lemma other_users_untouched_witness :
  run [CommandCheckin (Scenario.slash 7) "2024-01-01";
       MemberJoin (Scenario.member 8 None)]
    Scenario.table42 !! 42 = Scenario.table42 !! 42.
Proof.
  apply (other_users_untouched
           [CommandCheckin (Scenario.slash 7) "2024-01-01";
            MemberJoin (Scenario.member 8 None)]
           Scenario.table42 42).
  intros ev Hin.
  repeat (apply elem_of_cons in Hin as [->|Hin]; [discriminate|]).
  by apply elem_of_nil in Hin.
Defined.

(** ** Handlers *)

Lemma profile_total (interaction : Interaction) (t : Table) :
  ∃ reply t', profile interaction t = (inr reply, t').
Proof.
  destruct (get_user_current t (member_id (interaction_user interaction)))
    as (t1 & Hget & _).
  rewrite (profile_unfold interaction t t1 _ Hget). eauto.
Qed.

(** X8: no handler subscripts the [None] of an empty result.
    [get_user] inserts the row before it selects it, so the record that
    [on_member_join], [checkin] and [profile] subscript is always there:
    from every table, none of the handlers ends in the [TypeError] of
    [None["..."]]. *)
Theorem handlers_never_subscript_none (t : Table) :
  (∀ member, fst (on_member_join member t) ≠ inl TypeError) ∧
  (∀ interaction today, fst (checkin interaction today t) ≠ inl TypeError) ∧
  (∀ interaction, fst (profile interaction t) ≠ inl TypeError) ∧
  (∀ interaction, fst (ping interaction t) ≠ inl TypeError).
Proof.
  split; [|split; [|split]].
  - intros member.
    by destruct (on_member_join_total member t) as (sent & t' & ->).
  - intros interaction today.
    by destruct (checkin_outcomes interaction today t)
      as [(reply & t' & ->)| ->].
  - intros interaction.
    by destruct (profile_total interaction t) as (reply & t' & ->).
  - done.
Qed.

(** X9: a member whose join date the platform does not know is recorded
    with the placeholder text as join date, and the placeholder then
    stays: a later join event of the same user, whatever date it
    carries, does not replace it. *)
Theorem unknown_join_date_is_kept (m1 m2 : Member) (t : Table) :
  bot m1 = false →
  member_joined_at m1 = None →
  truthy (joined_of t (member_id m1)) = false →
  member_id m2 = member_id m1 →
  joined_of (handle (MemberJoin m1) t) (member_id m1) = Some "알 수 없음" ∧
  handle (MemberJoin m2) (handle (MemberJoin m1) t) = handle (MemberJoin m1) t.
Proof.
  intros Hbot Hunknown Htruthy Hid.
  assert (truthy (joined_at (current t (member_id m1))) = false) as Hcur.
  { unfold joined_of in Htruthy. unfold current.
    by destruct (t !! member_id m1). }
  assert (joined_str m1 = "알 수 없음") as Hstr.
  { unfold joined_str. by rewrite Hunknown. }
  simpl. rewrite (on_member_join_stamps m1 t Hbot Hcur). split.
  - unfold joined_of. rewrite lookup_insert_eq. simpl. by rewrite Hstr.
  - apply (on_member_join_keeps m2 _
             (stamped_row (current t (member_id m1)) (joined_str m1))).
    + rewrite Hid. apply lookup_insert_eq.
    + simpl. by rewrite Hstr.
Qed.

Lemma unknown_join_date_is_kept_witness :
  joined_of (handle (MemberJoin (Scenario.member 99 None)) Scenario.table42) 99
    = Some "알 수 없음" ∧
  handle (MemberJoin (Scenario.member 99 (Some (mkDatetime 2024 3 5))))
    (handle (MemberJoin (Scenario.member 99 None)) Scenario.table42) =
  handle (MemberJoin (Scenario.member 99 None)) Scenario.table42.
Proof.
  apply (unknown_join_date_is_kept (Scenario.member 99 None)
           (Scenario.member 99 (Some (mkDatetime 2024 3 5)))
           Scenario.table42); reflexivity.
Defined.

(** X10: what a non-bot join event answers.  The row of the member is
    there afterwards with a non-empty join date, whether or not a
    message is sent; a message is sent exactly when the guild has a
    system channel, and to that channel ([WELCOME_CHANNEL_ID] is 0, so
    no other channel is looked up); its fields show the member's id and
    the stored join date, balance and attendance count. *)
Theorem welcome_shows_stored_record (member : Member) (t : Table) :
  bot member = false →
  ∃ r d,
    snd (on_member_join member t) !! member_id member = Some r ∧
    joined_at r = Some d ∧ d ≠ "" ∧
    fst (on_member_join member t) =
      inr (match system_channel (guild member) with
           | None => None
           | Some c => Some (mkSend c (welcome_embed member r))
           end) ∧
    fields (welcome_embed member r) =
      [mkField "🆔 USER ID" (pretty (member_id member)) false;
       mkField "📅 서버 입장일" d true;
       mkField "💰 현재 잔고" (format_won (balance r)) true;
       mkField "✅ 총 출석" (format_count (total_checkins r)) true].
Proof.
  intros Hbot.
  assert (∀ r, truthy (joined_at r) = true →
               ∃ d, joined_at r = Some d ∧ d ≠ "" ∧
                    or_else (joined_at r) (joined_str member) = d) as Hshown.
  { intros [b n l [[|c s]|]] Ht; simplify_eq/=. by exists (String c s). }
  destruct (get_user_total t (member_id member))
    as (r & t1 & Hget & Hr & _).
  rewrite (on_member_join_unfold member t t1 r Hbot Hget).
  destruct (truthy (joined_at r)) eqn:Htruthy; simpl.
  - destruct (Hshown r Htruthy) as (d & Hd & Hne & Hor).
    exists r, d. repeat split; try done.
    unfold welcome_embed. simpl. by rewrite Hor.
  - destruct (Hshown (stamped_row r (joined_str member))
                (joined_str_truthy member)) as (d & Hd & Hne & Hor).
    exists (stamped_row r (joined_str member)), d.
    rewrite lookup_insert_eq. repeat split; try done.
    unfold welcome_embed. simpl in *. by rewrite Hor.
Qed.

Lemma welcome_shows_stored_record_witness :
  ∃ r d,
    snd (on_member_join (Scenario.member 99 (Some (mkDatetime 2024 3 5)))
           Scenario.table99) !! 99 = Some r ∧
    joined_at r = Some d ∧ d ≠ "" ∧
    fst (on_member_join (Scenario.member 99 (Some (mkDatetime 2024 3 5)))
           Scenario.table99) =
      inr (Some (mkSend 7
                   (welcome_embed
                      (Scenario.member 99 (Some (mkDatetime 2024 3 5))) r))) ∧
    fields (welcome_embed (Scenario.member 99 (Some (mkDatetime 2024 3 5))) r) =
      [mkField "🆔 USER ID" (pretty 99) false;
       mkField "📅 서버 입장일" d true;
       mkField "💰 현재 잔고" (format_won (balance r)) true;
       mkField "✅ 총 출석" (format_count (total_checkins r)) true].
Proof.
  apply (welcome_shows_stored_record
           (Scenario.member 99 (Some (mkDatetime 2024 3 5))) Scenario.table99).
  reflexivity.
Defined.

(** X11: a check-in either replies or raises [OverflowError].  When it
    replies, granted or rejected, it leaves [last_checkin = today] in
    the user's row, and its reply shows the balance that is stored
    afterwards; a profile query that follows changes nothing and shows
    that same balance, the stored attendance count and the stored dates.
    When it raises, the table is as it was. *)
Theorem profile_after_checkin (interaction : Interaction) (today : string)
    (t : Table) :
  let uid := member_id (interaction_user interaction) in
  (∃ embed ephemeral t1 r,
     checkin interaction today t = (inr (SendEmbed embed ephemeral), t1) ∧
     t1 !! uid = Some r ∧
     last_checkin r = Some today ∧
     mkField "현재 잔고" (format_won (balance r)) true ∈ fields embed ∧
     profile interaction t1 =
       (inr (SendEmbed (profile_embed interaction r) false), t1) ∧
     fields (profile_embed interaction r) =
       [mkField "💰 현재 잔고" ("**" +:+ format_won (balance r) +:+ "**") false;
        mkField "📅 총 출석" (format_count (total_checkins r)) true;
        mkField "🕒 마지막 출석" (or_else (last_checkin r) "없음") true;
        mkField "📥 서버 입장일" (or_else (joined_at r) "기록 없음") true]) ∨
  checkin interaction today t = (inl OverflowError, t).
Proof.
  intros uid. subst uid.
  destruct (get_user_current t (member_id (interaction_user interaction)))
    as (t1 & Hget & Ht1).
  set (r := current t (member_id (interaction_user interaction))) in *.
  assert (t1 !! member_id (interaction_user interaction) = Some r) as Hr.
  { destruct (get_user_total t (member_id (interaction_user interaction)))
      as (r0 & t0 & Hget0 & Hr0 & _).
    rewrite Hget0 in Hget. by simplify_eq. }
  rewrite (checkin_unfold interaction today t t1 r Hget).
  case_decide as Hlast; [|case_decide as Hfits].
  - left. exists (already_embed interaction (balance r)), true, t1, r.
    rewrite (profile_unfold interaction t1 t1 r (get_user_present _ _ r Hr)).
    repeat split; try done. simpl. by left.
  - left. eexists _, false, _, (granted_row r today).
    split; [done|].
    assert (<[member_id (interaction_user interaction) := granted_row r today]> t
              !! member_id (interaction_user interaction)
            = Some (granted_row r today)) as Hrow by apply lookup_insert_eq.
    rewrite (profile_unfold interaction _ _ _ (get_user_present _ _ _ Hrow)).
    repeat split; try done. simpl. by left.
  - by right.
Qed.

(** X12: a profile query never writes to a row that exists, and for a
    user without a row it stores the zeroed row and shows a balance of
    0, an attendance count of 0 and the two "no record" texts; asked
    again, it gives the same reply and leaves the table as it is. *)
Theorem profile_reads_or_creates (interaction : Interaction) (t : Table) :
  let uid := member_id (interaction_user interaction) in
  (∀ r, t !! uid = Some r →
        profile interaction t =
          (inr (SendEmbed (profile_embed interaction r) false), t)) ∧
  (t !! uid = None →
   profile interaction t =
     (inr (SendEmbed (profile_embed interaction default_row) false),
      <[uid := default_row]> t) ∧
   fields (profile_embed interaction default_row) =
     [mkField "💰 현재 잔고" "**0₩**" false;
      mkField "📅 총 출석" "0회" true;
      mkField "🕒 마지막 출석" "없음" true;
      mkField "📥 서버 입장일" "기록 없음" true]) ∧
  profile interaction (snd (profile interaction t)) =
    (fst (profile interaction t), snd (profile interaction t)).
Proof.
  intros uid. subst uid. split; [|split].
  - intros r Hr.
    by rewrite (profile_unfold interaction t t r (get_user_present _ _ r Hr)).
  - intros Hnew.
    by rewrite (profile_unfold interaction t _ _ (get_user_absent _ _ Hnew)).
  - destruct (get_user_total t (member_id (interaction_user interaction)))
      as (r & t1 & Hget & Hr & _).
    rewrite (profile_unfold interaction t t1 r Hget). simpl.
    by rewrite (profile_unfold interaction t1 t1 r (get_user_present _ _ r Hr)).
Qed.

Lemma profile_reads_or_creates_witness :
  profile (Scenario.slash 42) Scenario.table42 =
    (inr (SendEmbed
            (profile_embed (Scenario.slash 42)
               (mkRow 100000 1 (Some "2024-01-01") None)) false),
     Scenario.table42).
Proof.
  apply (proj1 (profile_reads_or_creates (Scenario.slash 42) Scenario.table42)
           (mkRow 100000 1 (Some "2024-01-01") None)).
  reflexivity.
Defined.

(** ** Start-up, in full *)

(** X13: [client.run] is reached exactly when DISCORD_TOKEN is set to a
    non-empty string, and then with that string as token; an empty
    DISCORD_TOKEN is as fatal as a missing one. *)
Theorem startup_runs_iff_token (environ : gmap string string) (token : string) :
  startup environ = ClientRun token ↔
  environ !! "DISCORD_TOKEN" = Some token ∧ token ≠ "".
Proof.
  unfold startup.
  destruct (environ !! "DISCORD_TOKEN") as [[|c s]|] eqn:Htok; simpl.
  - split; [discriminate|]. intros [? ?]. by simplify_eq.
  - split.
    + intros ?. by simplify_eq.
    + intros [? _]. by simplify_eq.
  - split; [discriminate|]. by intros [? _].
Qed.

(** ** Amounts *)

Local Open Scope char_scope.

Lemma list_ascii_of_string_app (s1 s2 : string) :
  list_ascii_of_string (s1 +:+ s2) =
  list_ascii_of_string s1 ++ list_ascii_of_string s2.
Proof. induction s1 as [|c s1 IH]; simpl; [done|]. by rewrite IH. Qed.

Lemma append_inv_tail (s1 s2 tail : string) :
  s1 +:+ tail = s2 +:+ tail → s1 = s2.
Proof.
  intros Heq. apply (f_equal list_ascii_of_string) in Heq.
  rewrite !list_ascii_of_string_app in Heq.
  apply app_inv_tail in Heq.
  apply (f_equal string_of_list_ascii) in Heq.
  by rewrite !string_of_list_ascii_of_string in Heq.
Qed.

Lemma filter_rev {A} (P : A → Prop) `{∀ x, Decision (P x)} (l : list A) :
  filter P (rev l) = rev (filter P l).
Proof.
  induction l as [|x l IH]; simpl; [done|].
  rewrite filter_app, IH, filter_cons.
  case_decide; simpl.
  - by rewrite filter_cons_True, filter_nil.
  - rewrite filter_cons_False, filter_nil by done. by rewrite app_nil_r.
Qed.

Lemma group3_strip (k : nat) (l : list ascii) :
  Forall (λ c, c ≠ ",") l →
  filter (λ c, c ≠ ",") (group3 k l) = l.
Proof.
  intros Hl. revert k. induction Hl as [|c l Hc Hl IH]; intros k; simpl; [done|].
  destruct k as [|k].
  - rewrite filter_cons_False by (intros Hne; by apply Hne).
    rewrite filter_cons_True by done. by rewrite IH.
  - rewrite filter_cons_True by done. by rewrite IH.
Qed.

Lemma pretty_N_char_no_comma (x : N) : pretty_N_char x ≠ ",".
Proof. unfold pretty_N_char. by repeat case_match. Qed.

Lemma pretty_N_go_no_comma (x : N) (s : string) :
  Forall (λ c, c ≠ ",") (list_ascii_of_string s) →
  Forall (λ c, c ≠ ",") (list_ascii_of_string (pretty_N_go x s)).
Proof.
  revert s. induction (N.lt_wf_0 x) as [x _ IH]; intros s Hs.
  assert (x = 0 ∨ 0 < x)%N as [->|Hpos] by lia.
  - by rewrite pretty_N_go_0.
  - rewrite pretty_N_go_step by done. apply IH.
    + by apply N.div_lt.
    + simpl. constructor; [apply pretty_N_char_no_comma | done].
Qed.

Lemma pretty_N_no_comma (x : N) :
  Forall (λ c, c ≠ ",") (list_ascii_of_string (pretty x)).
Proof.
  unfold pretty, pretty_N. case_decide.
  - simpl. by repeat constructor.
  - apply pretty_N_go_no_comma. constructor.
Qed.

Lemma pretty_abs_no_comma (n : Z) :
  Forall (λ c, c ≠ ",") (list_ascii_of_string (pretty (Z.abs n))).
Proof.
  destruct n as [|p|p]; simpl.
  - by repeat constructor.
  - apply (pretty_N_no_comma (Npos p)).
  - apply (pretty_N_no_comma (Npos p)).
Qed.

Lemma strip_commas_format_comma (n : Z) :
  strip_commas (format_comma n) = pretty n.
Proof.
  assert (filter (λ c, c ≠ ",")
            (rev (group3 3 (rev (list_ascii_of_string (pretty (Z.abs n))))))
          = list_ascii_of_string (pretty (Z.abs n))) as Hdigits.
  { rewrite filter_rev, group3_strip, rev_involutive; [done|].
    apply Forall_forall. intros c Hc. apply list_elem_of_In, in_rev in Hc.
    pose proof (pretty_abs_no_comma n) as Hall.
    rewrite Forall_forall in Hall. by apply Hall, list_elem_of_In. }
  unfold strip_commas, format_comma. case_decide as Hneg.
  - rewrite list_ascii_of_string_app, list_ascii_of_string_of_list_ascii.
    simpl. rewrite Hdigits.
    rewrite string_of_list_ascii_of_string.
    destruct n as [|p|p]; try lia. done.
  - rewrite list_ascii_of_string_of_list_ascii, Hdigits.
    rewrite string_of_list_ascii_of_string.
    destruct n as [|p|p]; try lia; done.
Qed.

Lemma string_of_list_ascii_app (l1 l2 : list ascii) :
  string_of_list_ascii (l1 ++ l2) =
  string_of_list_ascii l1 +:+ string_of_list_ascii l2.
Proof. induction l1 as [|c l1 IH]; simpl; [done|]. by rewrite IH. Qed.

Lemma strip_commas_app (s1 s2 : string) :
  strip_commas (s1 +:+ s2) = strip_commas s1 +:+ strip_commas s2.
Proof.
  unfold strip_commas.
  by rewrite list_ascii_of_string_app, filter_app, string_of_list_ascii_app.
Qed.

Local Close Scope char_scope.

(** X14: the thousands separators of [format_won] only decorate.  Taking
    the commas out of a formatted amount gives back the plain decimal
    numeral followed by the currency sign, for negative amounts too; so
    two different balances are never shown as the same text. *)
Theorem format_won_round_trip :
  (∀ n, strip_commas (format_won n) = pretty n +:+ "₩") ∧
  (∀ a b, format_won a = format_won b → a = b).
Proof.
  split.
  - intros n. unfold format_won.
    by rewrite strip_commas_app, strip_commas_format_comma.
  - intros a b Heq. unfold format_won in Heq.
    apply append_inv_tail in Heq.
    apply (inj pretty).
    by rewrite <- !strip_commas_format_comma, Heq.
Qed.

(** ** The schema at start-up *)

Lemma lower_joined_at : Schema.lower "joined_at" = "joined_at".
Proof. reflexivity. Qed.

Lemma schema_migrate_db_present (t : Schema.table) :
  "joined_at" ∈ Schema.columns t →
  Schema.migrate_db (Some t) = (inr tt, Some t).
Proof.
  intros Hcol. unfold Schema.migrate_db. simpl.
  by rewrite decide_False by (intros Hno; by apply Hno).
Qed.

Lemma schema_migrate_db_absent (t : Schema.table) :
  "joined_at" ∉ Schema.lower <$> Schema.columns t →
  Schema.migrate_db (Some t) =
    (inr tt,
     Some (Schema.mkTable (Schema.columns t ++ ["joined_at"])
             (insert "joined_at" Schema.Null <$> Schema.rows t))).
Proof.
  intros Hcol. unfold Schema.migrate_db, Schema.add_column.
  rewrite lower_joined_at. simpl.
  rewrite decide_True; [by rewrite decide_False by done|].
  intros Hin. apply Hcol. rewrite <- lower_joined_at.
  by apply list_elem_of_fmap_2.
Qed.

Lemma schema_migrate_db_clash (t : Schema.table) :
  "joined_at" ∉ Schema.columns t →
  "joined_at" ∈ Schema.lower <$> Schema.columns t →
  Schema.migrate_db (Some t) = (inl Schema.OperationalError, Some t).
Proof.
  intros Hcol Hclash. unfold Schema.migrate_db, Schema.add_column.
  rewrite lower_joined_at. simpl.
  rewrite decide_True by done. by rewrite decide_True by done.
Qed.



(** X16: starting the bot again changes nothing more: the database part
    of [setup_hook], run on the file it has left behind, ends as the
    first run ended (it succeeds again, or raises again) and leaves that
    file as it is. *)
Theorem setup_hook_idempotent (file : option Schema.table) :
  Schema.setup_hook (snd (Schema.setup_hook file)) =
    (fst (Schema.setup_hook file), snd (Schema.setup_hook file)).
Proof.
  unfold Schema.setup_hook. destruct file as [t|]; simpl.
  - destruct (decide ("joined_at" ∈ Schema.columns t)) as [Hcol|Hcol].
    + rewrite (schema_migrate_db_present t Hcol). simpl.
      by apply schema_migrate_db_present.
    + destruct (decide ("joined_at" ∈ Schema.lower <$> Schema.columns t))
        as [Hclash|Hno].
      * rewrite (schema_migrate_db_clash t Hcol Hclash). simpl.
        by apply schema_migrate_db_clash.
      * rewrite (schema_migrate_db_absent t Hno). simpl.
        apply schema_migrate_db_present. simpl. set_solver.
  - done.
Qed.


(** ** How events compose *)

(** The table after one event, in one equation. *)
Lemma handle_table (ev : Event) (t : Table) :
  handle ev t =
    if touches ev
    then <[event_user ev := row_after ev (current t (event_user ev))]> t
    else t.
Proof.
  assert (∀ uid t1, get_user uid t = (inr (Some (current t uid)), t1) →
                    t1 = <[uid := current t uid]> t) as Hget.
  { intros uid t1 Hg. unfold current in *.
    destruct (t !! uid) as [r|] eqn:Hr; simpl in *.
    - rewrite (get_user_present t uid r Hr) in Hg. simplify_eq.
      by rewrite insert_id.
    - rewrite (get_user_absent t uid Hr) in Hg. by simplify_eq. }
  destruct ev as [member|interaction today|interaction|interaction]; simpl.
  - destruct (bot member) eqn:Hbot; simpl.
    { by rewrite on_member_join_bot. }
    destruct (get_user_current t (member_id member)) as (t1 & Hg & _).
    rewrite (on_member_join_unfold member t t1 _ Hbot Hg).
    destruct (truthy _); simpl; [by apply Hget | done].
  - destruct (get_user_current t (member_id (interaction_user interaction)))
      as (t1 & Hg & _).
    rewrite (checkin_unfold interaction today t t1 _ Hg).
    case_decide; simpl; [by apply Hget |].
    case_decide as Hfits; simpl; [done|].
    symmetry. apply insert_id. unfold current in *.
    destruct (t !! member_id (interaction_user interaction)); [done|].
    by destruct Hfits.
  - destruct (get_user_current t (member_id (interaction_user interaction)))
      as (t1 & Hg & _).
    rewrite (profile_unfold interaction t t1 _ Hg). simpl. by apply Hget.
  - done.
Qed.

(** What the handlers store fits the columns: from a table whose
    balances and counts fit, every sequence of events gives such a
    table. *)
Lemma handle_storable (ev : Event) (t : Table) :
  storable t → storable (handle ev t).
Proof.
  intros Hok. rewrite handle_table. destruct (touches ev); [|done].
  apply map_Forall_insert_2; [|done].
  assert (in_int64 (balance (current t (event_user ev))) ∧
          in_int64 (total_checkins (current t (event_user ev)))) as Hcur.
  { unfold current. destruct (t !! event_user ev) as [r|] eqn:Hr; simpl.
    - by apply (Hok (event_user ev) r).
    - by vm_compute. }
  destruct ev as [member|interaction today|interaction|interaction]; simpl;
    try done.
  - by destruct (truthy _).
  - case_decide; [done|]. case_decide as Hfits; [|done]. apply Hfits.
Qed.

Lemma run_storable (evs : list Event) (t : Table) :
  storable t → storable (run evs t).
Proof.
  revert t. induction evs as [|ev evs IH]; intros t Hok; simpl; [done|].
  by apply IH, handle_storable.
Qed.

Lemma current_insert (t : Table) (u u' : Z) (r : Row) :
  current (<[u := r]> t) u' = if decide (u = u') then r else current t u'.
Proof. unfold current. rewrite lookup_insert. by case_decide. Qed.

Lemma row_after_idempotent (ev : Event) (r : Row) :
  row_after ev (row_after ev r) = row_after ev r.
Proof.
  destruct ev as [member|interaction today|interaction|interaction]; simpl;
    try done.
  - destruct (truthy (joined_at r)) eqn:Htruthy; simpl.
    + by rewrite Htruthy.
    + pose proof (joined_str_truthy member) as Hstr. simpl in Hstr.
      by rewrite Hstr.
  - destruct (decide (last_checkin r = Some today)) as [Hlast|Hlast]; simpl.
    + by rewrite decide_True by done.
    + destruct (decide (fits_granted r)) as [Hfits|Hfits]; simpl.
      * by rewrite decide_True by done.
      * rewrite decide_False by done. by rewrite decide_False by done.
Qed.

(** X18: delivering an event twice is harmless.  For every event (a join
    event, a check-in with its date, a profile query, a ping), handling
    it a second time right after the first leaves the table as the first
    handling left it. *)
Theorem handle_idempotent (ev : Event) (t : Table) :
  handle ev (handle ev t) = handle ev t.
Proof.
  rewrite (handle_table ev (handle ev t)), (handle_table ev t).
  destruct (touches ev); [|done].
  rewrite current_insert, decide_True by done.
  by rewrite row_after_idempotent, insert_insert_eq.
Qed.

Lemma handle_commute_other_user (e1 e2 : Event) (t : Table) :
  event_user e1 ≠ event_user e2 →
  handle e1 (handle e2 t) = handle e2 (handle e1 t).
Proof.
  intros Hne.
  rewrite (handle_table e1 (handle e2 t)), (handle_table e2 (handle e1 t)).
  rewrite (handle_table e1 t), (handle_table e2 t).
  destruct (touches e1), (touches e2); try done.
  rewrite !current_insert, !decide_False by done.
  by apply insert_insert_ne.
Qed.

(** X19: events of different users commute: handled in either order,
    two events about different users leave the same table. *)
Theorem different_users_commute (e1 e2 : Event) (t : Table) :
  event_user e1 ≠ event_user e2 →
  handle e1 (handle e2 t) = handle e2 (handle e1 t).
Proof. apply handle_commute_other_user. Qed.

Lemma different_users_commute_witness :
  handle (CommandCheckin (Scenario.slash 42) "2024-01-02")
    (handle (MemberJoin (Scenario.member 99 None)) Scenario.table42) =
  handle (MemberJoin (Scenario.member 99 None))
    (handle (CommandCheckin (Scenario.slash 42) "2024-01-02") Scenario.table42).
Proof.
  apply (different_users_commute
           (CommandCheckin (Scenario.slash 42) "2024-01-02")
           (MemberJoin (Scenario.member 99 None)) Scenario.table42).
  discriminate.
Defined.

Lemma row_after_join_commutes (member : Member) (ev : Event) (r : Row) :
  is_join ev = false →
  row_after (MemberJoin member) (row_after ev r) =
  row_after ev (row_after (MemberJoin member) r).
Proof.
  intros Hev.
  destruct ev as [m2|interaction today|interaction|interaction];
    [done| |done|done].
  simpl.
  destruct (truthy (joined_at r)) eqn:Htruthy;
    destruct (decide (last_checkin r = Some today)) as [Hlast|Hlast];
    destruct (decide (fits_granted r)) as [Hfits|Hfits]; simpl;
    rewrite ?Htruthy; try done.
  - by rewrite decide_True by done.
  - by rewrite decide_True by done.
  - rewrite decide_False by done. by rewrite decide_True by done.
  - rewrite decide_False by done. by rewrite decide_False by done.
Qed.

(** X20: a join event and a command of the same user commute: the join
    event writes [joined_at] only and the commands never read or write
    it, so the table is the same whichever of the two is handled
    first. *)
Theorem join_commutes_with_commands (member : Member) (ev : Event) (t : Table) :
  is_join ev = false →
  handle (MemberJoin member) (handle ev t) =
  handle ev (handle (MemberJoin member) t).
Proof.
  intros Hev.
  destruct (decide (event_user (MemberJoin member) = event_user ev))
    as [Hu|Hu]; [|by apply handle_commute_other_user].
  rewrite (handle_table (MemberJoin member) (handle ev t)).
  rewrite (handle_table ev (handle (MemberJoin member) t)).
  rewrite (handle_table (MemberJoin member) t), (handle_table ev t).
  rewrite <- Hu.
  destruct (touches (MemberJoin member)), (touches ev); try done.
  rewrite !current_insert, !decide_True by done.
  rewrite !insert_insert_eq.
  by rewrite row_after_join_commutes.
Qed.

Lemma join_commutes_with_commands_witness :
  handle (MemberJoin (Scenario.member 42 (Some (mkDatetime 2024 3 1))))
    (handle (CommandCheckin (Scenario.slash 42) "2024-01-02") Scenario.table42) =
  handle (CommandCheckin (Scenario.slash 42) "2024-01-02")
    (handle (MemberJoin (Scenario.member 42 (Some (mkDatetime 2024 3 1))))
       Scenario.table42).
Proof.
  apply (join_commutes_with_commands
           (Scenario.member 42 (Some (mkDatetime 2024 3 1)))
           (CommandCheckin (Scenario.slash 42) "2024-01-02") Scenario.table42).
  reflexivity.
Defined.
